(** * The Please RPC cache server: startup logic and storage engine
    This development embeds [tools/cache/rpc_server_main.go] (the [main]
    function of the remote cache server) and states the properties its
    specification claims about it.  Calls into the [server] and [cluster]
    packages are recorded as events of a trace; the storage engine behind
    them is modelled from the specification in the second half of the file. *)

From Stdlib Require Import ZArith String Ascii DecimalString DecimalPos DecimalZ
  OrderedTypeEx.
From stdpp Require Import gmap strings list sorting.

Local Open Scope string_scope.
Local Open Scope Z_scope.

(** ** Go values used by [main] *)

(** Go's [s == ""] and [s != ""]. *)
Definition is_empty (s : string) : bool := String.eqb s "".
Definition non_empty (s : string) : bool := negb (is_empty s).

(** Go's [%d] verb on an integer. *)
Definition fmt_d (n : Z) : string := NilZero.string_of_int (Z.to_int n).

(** [strings.Split(s, sep)] for a one-character separator: the pieces
    between the separators, one more piece than there are separators. *)
Fixpoint split_on (sep : ascii) (s : string) : list string :=
  match s with
  | EmptyString => [EmptyString]
  | String c rest =>
      if Ascii.eqb c sep then EmptyString :: split_on sep rest
      else match split_on sep rest with
           | piece :: pieces => String c piece :: pieces
           | [] => [String c EmptyString]
           end
  end.

Definition comma : ascii := ","%char.

(** ** The flags: the [opts] struct *)

Record CleanFlagsT := {
  LowWaterMark : Z;
  HighWaterMark : Z;
  CleanFrequency : Z;
  MaxArtifactAge : Z
}.

Record TLSFlagsT := {
  KeyFile : string;
  CertFile : string;
  CACertFile : string;
  WritableCerts : string;
  ReadonlyCerts : string
}.

Record ClusterFlagsT := {
  ClusterPort : Z;
  ClusterAddresses : string;
  SeedCluster : bool;
  ClusterSize : Z;
  NodeName : string;
  SeedIf : string;
  AdvertiseAddr : string
}.

Record Opts := {
  Port : Z;
  HTTPPort : Z;
  MetricsPort : Z;
  Dir : string;
  Verbosity : Z;
  LogFile : string;
  CleanFlags : CleanFlagsT;
  TLSFlags : TLSFlagsT;
  ClusterFlags : ClusterFlagsT
}.

(** ** The outside world *)

(** What [net.LookupIP] returns: the addresses and the error (if any). *)
Record LookupResult := {
  ips : list string;
  err : option string
}.

(** The resolver [main] runs against. *)
Definition Resolver := string -> LookupResult.

(** What [cache.TotalSize()] and [cache.NumFiles()] return when a status
    request is handled. *)
Record CacheCounters := {
  TotalSize : Z;
  NumFiles : Z
}.

Record Response := {
  headers : list (string * string);
  body : string
}.

Definition Handler := CacheCounters -> Response.

(** The value [cluster.NewCluster] is called with; [clusta] is a pointer to
    it, [None] being Go's [nil]. *)
Record ClusterRef := {
  cl_cluster_port : Z;
  cl_port : Z;
  cl_name : string;
  cl_advertise : string
}.

(** The bodies a goroutine started by [main] can have, named by the call
    each makes.  The two status listeners of lines 98 and 100 pass what the
    call returns to [log.Fatalf]; the metrics listener of line 116 drops it
    (see [on_return] and [process_end]). *)
Inductive Goroutine :=
| ListenAndServeTLS (addr cert key : string)
| ListenAndServe (addr : string)
| ServeMetrics (addr : string).

(** The calls [main] makes, in order.  [RegisterMetrics] stands for lines
    111-114: [grpc_prometheus.Register], [EnableHandlingTimeHistogram] and the
    [/metrics] mux. *)
Inductive Event :=
| InitLogging (verbosity : Z)
| InitFileLogging (file : string) (verbosity : Z)
| Notice (msg : string)
| NewCache (dir : string) (frequency age : Z) (low high : Z)
| LookupIP (host : string)
| NewCluster (c : ClusterRef)
| ClusterInit (c : ClusterRef) (size : Z)
| ClusterJoin (c : ClusterRef) (addrs : list string)
| HandleFunc (pattern : string) (h : Handler)
| Go (g : Goroutine)
| BuildGrpcServer (port : Z) (clusta : option ClusterRef)
    (key cert ca readonly writable : string)
| RegisterMetrics
| ServeGrpcForever.

(** ** A process: a trace of calls that ends in a value or in [log.Fatalf] *)

Module Proc.

Inductive End (A : Type) :=
| Done (a : A)
| Fatal (msg : string).
Arguments Done {A} a.
Arguments Fatal {A} msg.

Definition t (A : Type) : Type := list Event * End A.

Definition ret {A} (a : A) : t A := ([], Done a).

Definition bind {A B} (m : t A) (k : A -> t B) : t B :=
  match m with
  | (tr, Done a) => let '(tr', e) := k a in (app tr tr', e)
  | (tr, Fatal msg) => (tr, Fatal msg)
  end.

Definition emit (e : Event) : t unit := ([e], Done tt).

(** [log.Fatalf]: the process exits, nothing after it runs. *)
Definition fatalf {A} (msg : string) : t A := ([], Fatal msg).

Definition when (b : bool) (m : t unit) : t unit :=
  if b then m else ret tt.

Definition trace {A} (m : t A) : list Event := fst m.
Definition outcome {A} (m : t A) : End A := snd m.

End Proc.

Import Proc.

#[export] Instance proc_ret : MRet Proc.t := @Proc.ret.
#[export] Instance proc_bind : MBind Proc.t := fun A B k m => Proc.bind m k.

(** ** [main] *)

Definition msg_key_cert : string :=
  "Must pass both --key_file and --cert_file if you pass one".
Definition msg_certs_need_tls : string :=
  "You can only use --writable_certs / --readonly_certs with https (--key_file and --cert_file)".
Definition msg_cluster_size : string :=
  "You must pass a cluster size of > 1 when initialising the seed node.".

(** Lines 63-67: the two checks on the TLS flags. *)
Definition check_tls (tls : TLSFlagsT) : Proc.t unit :=
  if negb (Bool.eqb (is_empty (KeyFile tls)) (is_empty (CertFile tls))) then
    fatalf msg_key_cert
  else if is_empty (KeyFile tls)
          && (non_empty (WritableCerts tls) || non_empty (ReadonlyCerts tls)) then
    fatalf msg_certs_need_tls
  else ret tt.

(** Lines 75-78: [--seed_if] overrides [opts.ClusterFlags.SeedCluster] when
    it names this node.  The result is the value of the field that line 79
    reads. *)
Definition seed_if_applies (cf : ClusterFlagsT) : bool :=
  non_empty (SeedIf cf) && String.eqb (SeedIf cf) (NodeName cf).

Definition resolution_failed (r : LookupResult) : bool :=
  match err r with
  | Some _ => true
  | None => (Z.of_nat (length (ips r)) =? 0)
  end.

Definition apply_seed_if (net : Resolver) (cf : ClusterFlagsT) : Proc.t bool :=
  if seed_if_applies cf then
    emit (LookupIP (ClusterAddresses cf)) ;;
    ret (resolution_failed (net (ClusterAddresses cf)))
  else ret (SeedCluster cf).

Definition new_cluster (o : Opts) : ClusterRef :=
  {| cl_cluster_port := ClusterPort (ClusterFlags o);
     cl_port := Port o;
     cl_name := NodeName (ClusterFlags o);
     cl_advertise := AdvertiseAddr (ClusterFlags o) |}.

(** Lines 79-88: seed, join, or leave [clusta] nil. *)
Definition setup_cluster (o : Opts) (seed : bool) : Proc.t (option ClusterRef) :=
  let cf := ClusterFlags o in
  if seed then
    (if ClusterSize cf <? 2 then fatalf msg_cluster_size else ret tt) ;;
    emit (NewCluster (new_cluster o)) ;;
    emit (ClusterInit (new_cluster o) (ClusterSize cf)) ;;
    ret (Some (new_cluster o))
  else if non_empty (ClusterAddresses cf) then
    emit (NewCluster (new_cluster o)) ;;
    emit (ClusterJoin (new_cluster o) (split_on comma (ClusterAddresses cf))) ;;
    ret (Some (new_cluster o))
  else ret None.

(** Lines 91-94: the handler of the status endpoint. *)
Definition status_handler : Handler := fun c =>
  {| headers := [("Content-Type", "text/plain")];
     body := "Total size: " ++ fmt_d (TotalSize c) ++ " bytes" ++ String "010" "Num files: "
             ++ fmt_d (NumFiles c) ++ String "010" "" |}.

(** Lines 95-102: the goroutine that serves it, and that ends the process
    through [log.Fatalf] if the listener ever returns. *)
Definition status_listener (o : Opts) : Goroutine :=
  let port := ":" ++ fmt_d (HTTPPort o) in
  if non_empty (KeyFile (TLSFlags o)) then
    ListenAndServeTLS port (CertFile (TLSFlags o)) (KeyFile (TLSFlags o))
  else ListenAndServe port.

(** Lines 57-120, from the flags as [cli.ParseFlagsOrDie] left them in
    [opts]: the calls [main] makes and how its own thread ends.  How the
    process ends, goroutines included, is [process_end]. *)
Definition main (net : Resolver) (o : Opts) : Proc.t unit :=
  emit (InitLogging (Verbosity o)) ;;
  when (non_empty (LogFile o)) (emit (InitFileLogging (LogFile o) (Verbosity o))) ;;
  check_tls (TLSFlags o) ;;
  emit (Notice ("Scanning existing cache directory " ++ Dir o ++ "...")) ;;
  emit (NewCache (Dir o) (CleanFrequency (CleanFlags o)) (MaxArtifactAge (CleanFlags o))
          (LowWaterMark (CleanFlags o)) (HighWaterMark (CleanFlags o))) ;;
  seed ← apply_seed_if net (ClusterFlags o);
  clusta ← setup_cluster o seed;
  when (negb (HTTPPort o =? 0))
    (emit (HandleFunc "/" status_handler) ;;
     emit (Go (status_listener o)) ;;
     emit (Notice ("Serving HTTP stats on port " ++ fmt_d (HTTPPort o)))) ;;
  emit (Notice ("Starting up RPC cache server on port " ++ fmt_d (Port o) ++ "...")) ;;
  emit (BuildGrpcServer (Port o) clusta (KeyFile (TLSFlags o)) (CertFile (TLSFlags o))
          (CACertFile (TLSFlags o)) (ReadonlyCerts (TLSFlags o)) (WritableCerts (TLSFlags o))) ;;
  when (negb (MetricsPort o =? 0))
    (emit RegisterMetrics ;;
     emit (Notice ("Serving Prometheus metrics on port " ++ fmt_d (MetricsPort o) ++ " /metrics")) ;;
     emit (Go (ServeMetrics (":" ++ fmt_d (MetricsPort o))))) ;;
  emit ServeGrpcForever.

(** ** Observations on a run of [main] *)

Definition is_new_cache (e : Event) : bool :=
  match e with NewCache _ _ _ _ _ => true | _ => false end.
Definition is_new_cluster (e : Event) : bool :=
  match e with NewCluster _ => true | _ => false end.
Definition is_init (e : Event) : bool :=
  match e with ClusterInit _ _ => true | _ => false end.
Definition is_join (e : Event) : bool :=
  match e with ClusterJoin _ _ => true | _ => false end.
Definition is_build (e : Event) : bool :=
  match e with BuildGrpcServer _ _ _ _ _ _ _ => true | _ => false end.
Definition is_serve (e : Event) : bool :=
  match e with ServeGrpcForever => true | _ => false end.
Definition is_go (e : Event) : bool :=
  match e with Go _ => true | _ => false end.
Definition is_handle (e : Event) : bool :=
  match e with HandleFunc _ _ => true | _ => false end.

(** [happens p m]: some call of the run [m] satisfies [p]. *)
Definition happens {A} (p : Event -> bool) (m : Proc.t A) : bool :=
  existsb p (trace m).

(** The run ended in [log.Fatalf]. *)
Definition is_fatal {A} (m : Proc.t A) : bool :=
  match outcome m with Fatal _ => true | Done _ => false end.

(** The conditions of lines 63 and 65, and the value of
    [opts.ClusterFlags.SeedCluster] that line 79 reads. *)
Definition key_cert_mismatch (tls : TLSFlagsT) : bool :=
  negb (Bool.eqb (is_empty (KeyFile tls)) (is_empty (CertFile tls))).

Definition certs_without_key (tls : TLSFlagsT) : bool :=
  is_empty (KeyFile tls)
  && (non_empty (WritableCerts tls) || non_empty (ReadonlyCerts tls)).

Definition tls_flags_ok (tls : TLSFlagsT) : bool :=
  negb (key_cert_mismatch tls) && negb (certs_without_key tls).

Definition seed_decision (net : Resolver) (cf : ClusterFlagsT) : bool :=
  if seed_if_applies cf then resolution_failed (net (ClusterAddresses cf))
  else SeedCluster cf.

(** The configuration errors [main] checks for. *)
Definition config_error (net : Resolver) (o : Opts) : bool :=
  key_cert_mismatch (TLSFlags o)
  || certs_without_key (TLSFlags o)
  || (seed_decision net (ClusterFlags o) && (ClusterSize (ClusterFlags o) <? 2)).

(** *** The three segments of a run *)

(** Up to the TLS checks. *)
Definition logging_calls (o : Opts) : list Event :=
  InitLogging (Verbosity o)
  :: (if non_empty (LogFile o) then [InitFileLogging (LogFile o) (Verbosity o)] else []).

(** From the cache scan to the seeding decision. *)
Definition cache_calls (o : Opts) : list Event :=
  [ Notice ("Scanning existing cache directory " ++ Dir o ++ "...");
    NewCache (Dir o) (CleanFrequency (CleanFlags o)) (MaxArtifactAge (CleanFlags o))
      (LowWaterMark (CleanFlags o)) (HighWaterMark (CleanFlags o)) ]
  ++ (if seed_if_applies (ClusterFlags o) then [LookupIP (ClusterAddresses (ClusterFlags o))]
      else [])%list.

(** From the status endpoint on, with [clusta] settled. *)
Definition serving_calls (o : Opts) (clusta : option ClusterRef) : list Event :=
  ((if negb (HTTPPort o =? 0) then
      [ HandleFunc "/" status_handler;
        Go (status_listener o);
        Notice ("Serving HTTP stats on port " ++ fmt_d (HTTPPort o)) ]
    else [])
   ++ [ Notice ("Starting up RPC cache server on port " ++ fmt_d (Port o) ++ "...");
        BuildGrpcServer (Port o) clusta (KeyFile (TLSFlags o)) (CertFile (TLSFlags o))
          (CACertFile (TLSFlags o)) (ReadonlyCerts (TLSFlags o)) (WritableCerts (TLSFlags o)) ]
   ++ (if negb (MetricsPort o =? 0) then
         [ RegisterMetrics;
           Notice ("Serving Prometheus metrics on port " ++ fmt_d (MetricsPort o) ++ " /metrics");
           Go (ServeMetrics (":" ++ fmt_d (MetricsPort o))) ]
       else [])
   ++ [ServeGrpcForever])%list.

(** The cluster calls of lines 83-87. *)
Definition cluster_calls (o : Opts) (seed : bool) : list Event :=
  if seed then
    [ NewCluster (new_cluster o);
      ClusterInit (new_cluster o) (ClusterSize (ClusterFlags o)) ]
  else if non_empty (ClusterAddresses (ClusterFlags o)) then
    [ NewCluster (new_cluster o);
      ClusterJoin (new_cluster o) (split_on comma (ClusterAddresses (ClusterFlags o))) ]
  else [].

Definition clusta_of (o : Opts) (seed : bool) : option ClusterRef :=
  if seed then Some (new_cluster o)
  else if non_empty (ClusterAddresses (ClusterFlags o)) then Some (new_cluster o)
  else None.

(** ** Concrete configurations *)

Definition no_tls : TLSFlagsT :=
  {| KeyFile := ""; CertFile := ""; CACertFile := "";
     WritableCerts := ""; ReadonlyCerts := "" |}.

Definition with_tls : TLSFlagsT :=
  {| KeyFile := "key.pem"; CertFile := "cert.pem"; CACertFile := "";
     WritableCerts := "rw"; ReadonlyCerts := "" |}.

Definition default_clean : CleanFlagsT :=
  {| LowWaterMark := 18000000000; HighWaterMark := 20000000000;
     CleanFrequency := 600000000000; MaxArtifactAge := 2592000000000000 |}.

Definition standalone : ClusterFlagsT :=
  {| ClusterPort := 7946; ClusterAddresses := ""; SeedCluster := false;
     ClusterSize := 0; NodeName := ""; SeedIf := ""; AdvertiseAddr := "" |}.

Definition opts_of (http : Z) (tls : TLSFlagsT) (cf : ClusterFlagsT) : Opts :=
  {| Port := 7677; HTTPPort := http; MetricsPort := 0; Dir := "plz-rpc-cache";
     Verbosity := 2; LogFile := ""; CleanFlags := default_clean;
     TLSFlags := tls; ClusterFlags := cf |}.

(** A resolver that knows the one host name [cache-peers] and fails on every
    other string, as [net.LookupIP] fails on a list of addresses or on a
    host with a port; and a resolver that finds nothing. *)
Definition resolves : Resolver := fun host =>
  if String.eqb host "cache-peers" then {| ips := ["10.0.0.1"]; err := None |}
  else {| ips := []; err := Some "no such host" |}.

Definition key_only : TLSFlagsT :=
  {| KeyFile := "key.pem"; CertFile := ""; CACertFile := "";
     WritableCerts := ""; ReadonlyCerts := "" |}.

Definition certs_only : TLSFlagsT :=
  {| KeyFile := ""; CertFile := ""; CACertFile := "";
     WritableCerts := "/etc/cache/writable"; ReadonlyCerts := "" |}.

Definition seed_of_size (n : Z) : ClusterFlagsT :=
  {| ClusterPort := 7946; ClusterAddresses := ""; SeedCluster := true;
     ClusterSize := n; NodeName := "cache-0"; SeedIf := ""; AdvertiseAddr := "" |}.

Definition seed_with_peers (seed_if : string) : ClusterFlagsT :=
  {| ClusterPort := 7946; ClusterAddresses := "cache-1:7946,cache-2:7946";
     SeedCluster := true; ClusterSize := 3; NodeName := "cache-0";
     SeedIf := seed_if; AdvertiseAddr := "" |}.

(** The same with one host name for the peers, as a headless service gives. *)
Definition seed_with_host (seed_if : string) : ClusterFlagsT :=
  {| ClusterPort := 7946; ClusterAddresses := "cache-peers";
     SeedCluster := true; ClusterSize := 3; NodeName := "cache-0";
     SeedIf := seed_if; AdvertiseAddr := "" |}.

(** ** Observations on the cluster and on the status endpoint *)

(** The cluster handed to the gRPC server, if the run got that far. *)
Definition built_with (e : Event) : option (option ClusterRef) :=
  match e with
  | BuildGrpcServer _ clusta _ _ _ _ _ => Some clusta
  | _ => None
  end.


Definition is_tls_listener (e : Event) : bool :=
  match e with Go (ListenAndServeTLS _ _ _) => true | _ => false end.
Definition is_plain_listener (e : Event) : bool :=
  match e with Go (ListenAndServe _) => true | _ => false end.

Definition newline : string := String "010" "".

(** * The storage engine behind [server.NewCache]
    [main] hands the retention flags to [server.NewCache] and the resulting
    cache to [server.BuildGrpcServer]; the status handler reads its two
    counters.  The engine is described here as the specification describes
    it: operations are atomic steps on the store (per-key exclusion and
    atomic rename make them so), requests of different clients interleave,
    and the file system does not fail. *)

Definition Key : Type := string.
Definition Payload : Type := list Byte.byte.
Definition Time : Type := Z.

Inductive Error :=
| NotFound
| PermissionDenied
| Unauthenticated
| StorageError
| ClusterUnavailable
| ConfigError.

Inductive Result (A : Type) :=
| Ok (a : A)
| Failed (e : Error).
Arguments Ok {A} a.
Arguments Failed {A} e.

(** Modelled from the spec: the Artifact of section 3, declared in the
    missing [server] package: a payload, its size in bytes, a creation and a
    last-access timestamp. *)
Record Artifact := {
  payload : Payload;
  art_size : Z;
  created : Time;
  last_access : Time
}.

Module ArtifactStore.

(** Modelled from the spec: the ArtifactStore of section 4.1, the cache
    that [server.NewCache] returns: the resident artifacts by key and the
    aggregate size, kept as a counter of its own and updated by deltas. *)
Record t := {
  artifacts : gmap Key Artifact;
  aggregate : Z
}.

Definition empty : t := {| artifacts := ∅; aggregate := 0 |}.

Definition size_of (s : t) (k : Key) : Z :=
  match artifacts s !! k with
  | Some a => art_size a
  | None => 0
  end.

Definition new_artifact (now : Time) (p : Payload) : Artifact :=
  {| payload := p; art_size := Z.of_nat (length p); created := now; last_access := now |}.

(** Modelled from the spec: [Put(key, payload)] of section 4.1: the payload
    replaces whatever the key held, in one step, and the aggregate size moves
    by the difference between the new size and the old one. *)
Definition Put (now : Time) (k : Key) (p : Payload) (s : t) : Result unit * t :=
  (Ok tt,
   {| artifacts := <[k := new_artifact now p]> (artifacts s);
      aggregate := aggregate s - size_of s k + Z.of_nat (length p) |}).

(** Modelled from the spec: [Get(key)] of section 4.1: the payload, or
    [NotFound]. *)
Definition Get (k : Key) (s : t) : Result Payload :=
  match artifacts s !! k with
  | Some a => Ok (payload a)
  | None => Failed NotFound
  end.

(** Modelled from the spec: the last-access update that a successful [Get]
    triggers; it changes that timestamp and nothing else. *)
Definition touch (now : Time) (k : Key) (s : t) : t :=
  {| artifacts :=
       alter (fun a => {| payload := payload a; art_size := art_size a;
                          created := created a; last_access := now |}) k (artifacts s);
     aggregate := aggregate s |}.

(** Modelled from the spec: [Delete(key)] of section 4.1: removes the
    artifact and its size from the aggregate; on an absent key it changes
    nothing and still reports success. *)
Definition Delete (k : Key) (s : t) : Result unit * t :=
  match artifacts s !! k with
  | Some a => (Ok tt, {| artifacts := delete k (artifacts s);
                         aggregate := aggregate s - art_size a |})
  | None => (Ok tt, s)
  end.

(** Modelled from the spec: [Stat()] of section 4.1: the two counters the
    status handler prints. *)
Definition Stat (s : t) : CacheCounters :=
  {| TotalSize := aggregate s; NumFiles := Z.of_nat (size (artifacts s)) |}.

End ArtifactStore.

(** Modelled from the spec: the capabilities the AuthGate of section 4.3
    grants. *)
Inductive Capability := CapNone | CapRead | CapWrite.

Definition can_read (c : Capability) : bool :=
  match c with CapNone => false | _ => true end.
Definition can_write (c : Capability) : bool :=
  match c with CapWrite => true | _ => false end.

Module RequestRouter.

Import ArtifactStore.

(** Modelled from the spec: [Store], [Retrieve] and [Delete] of section
    4.5, for a request the node serves from its own store (as every request
    is when [clusta] is nil). *)
Definition Store (c : Capability) (now : Time) (k : Key) (p : Payload) (s : t)
  : Result unit * t :=
  if can_write c then Put now k p s else (Failed PermissionDenied, s).

Definition Retrieve (c : Capability) (now : Time) (k : Key) (s : t)
  : Result Payload * t :=
  if can_read c then
    match Get k s with
    | Ok p => (Ok p, touch now k s)
    | Failed e => (Failed e, s)
    end
  else (Failed PermissionDenied, s).

Definition Delete (c : Capability) (k : Key) (s : t) : Result unit * t :=
  if can_write c then ArtifactStore.Delete k s else (Failed PermissionDenied, s).

(** A request of some client, as it reaches the router. *)
Inductive Request :=
| ReqStore (c : Capability) (now : Time) (k : Key) (p : Payload)
| ReqRetrieve (c : Capability) (now : Time) (k : Key)
| ReqDelete (c : Capability) (k : Key).

Definition key_of (r : Request) : Key :=
  match r with
  | ReqStore _ _ k _ => k
  | ReqRetrieve _ _ k => k
  | ReqDelete _ k => k
  end.

Definition is_store (r : Request) : bool :=
  match r with ReqStore _ _ _ _ => true | _ => false end.

Definition serve (r : Request) (s : t) : t :=
  match r with
  | ReqStore c now k p => (Store c now k p s).2
  | ReqRetrieve c now k => (Retrieve c now k s).2
  | ReqDelete c k => (Delete c k s).2
  end.

(** The requests of other clients, in the order they take effect. *)
Definition serve_all (rs : list Request) (s : t) : t :=
  foldl (fun s r => serve r s) s rs.

End RequestRouter.

(** Two payloads. *)
Definition bytes_abc : Payload := [Byte.x61; Byte.x62; Byte.x63].
Definition bytes_de : Payload := [Byte.x64; Byte.x65].

(** ** The evictor
    A cycle that runs on its own: no [Put] is in flight while it deletes and
    no deletion fails, so the cycle has no candidate to skip. *)

Module Evictor.

Import ArtifactStore.

(** Modelled from the spec: step 1 of section 4.2, the listing of the
    resident artifacts with their sizes and last-access times. *)
Definition snapshot (s : t) : list (Key * Artifact) := map_to_list (artifacts s).

(** Modelled from the spec: "last-access time is older than
    [MaxArtifactAge]". *)
Definition expired (cfg : CleanFlagsT) (now : Time) (a : Artifact) : bool :=
  MaxArtifactAge cfg <? now - last_access a.

Definition fresh (cfg : CleanFlagsT) (now : Time) (ka : Key * Artifact) : Prop :=
  expired cfg now ka.2 = false.

#[global] Instance fresh_dec cfg now ka : Decision (fresh cfg now ka).
Proof. unfold fresh. apply _. Defined.

(** Modelled from the spec: step 2 of section 4.2, the age pass: every
    expired artifact of the listing is deleted, whatever the aggregate size. *)
Definition age_pass (cfg : CleanFlagsT) (now : Time) (snap : list (Key * Artifact)) (s : t) : t :=
  foldl (fun s ka => if expired cfg now ka.2 then (Delete ka.1 s).2 else s) s snap.

(** Modelled from the spec: least recently accessed first, ties broken by
    key order. *)
Definition lru_leb (x y : Key * Artifact) : bool :=
  (last_access x.2 <? last_access y.2)
  || ((last_access x.2 =? last_access y.2) && String.leb x.1 y.1).

Definition lru_le (x y : Key * Artifact) : Prop := lru_leb x y = true.

(** The strict order: older, or as old with a smaller key. *)
Definition lru_lt (x y : Key * Artifact) : Prop :=
  last_access x.2 < last_access y.2
  \/ (last_access x.2 = last_access y.2 /\ String.ltb x.1 y.1 = true).

#[global] Instance lru_le_dec : RelDecision lru_le.
Proof. intros x y. unfold lru_le. apply _. Defined.

Definition lru_order (l : list (Key * Artifact)) : list (Key * Artifact) :=
  merge_sort lru_le l.

(** Modelled from the spec: the loop of step 3: delete the candidates in
    order until the aggregate size is at or below the low water mark.  The
    second component lists the keys deleted, in order. *)
Fixpoint evict_lru (low : Z) (cands : list (Key * Artifact)) (s : t) : t * list Key :=
  match cands with
  | [] => (s, [])
  | ka :: rest =>
      if aggregate s <=? low then (s, [])
      else let '(s', gone) := evict_lru low rest (Delete ka.1 s).2 in
           (s', ka.1 :: gone)
  end.

(** Modelled from the spec: step 3 of section 4.2, the size pass: it runs
    only if the aggregate size exceeds the high water mark. *)
Definition size_pass (cfg : CleanFlagsT) (cands : list (Key * Artifact)) (s : t)
  : t * list Key :=
  if HighWaterMark cfg <? aggregate s then
    evict_lru (LowWaterMark cfg) (lru_order cands) s
  else (s, []).

(** Modelled from the spec: one cycle of section 4.2: one listing, the age
    pass, then the size pass over what the age pass left of the listing. *)
Definition cycle (cfg : CleanFlagsT) (now : Time) (s : t) : t * list Key :=
  let snap := snapshot s in
  size_pass cfg (filter (fresh cfg now) snap) (age_pass cfg now snap s).

End Evictor.

(** ** Invariant and measures of the store *)

(** The aggregate size is the sum of the sizes of the resident artifacts,
    and each size is the length of its payload. *)
Definition sum_sizes (l : list (Key * Artifact)) : Z :=
  foldr (fun ka acc => art_size ka.2 + acc) 0 l.

Definition well_formed (s : ArtifactStore.t) : Prop :=
  ArtifactStore.aggregate s = sum_sizes (Evictor.snapshot s)
  /\ map_Forall (fun _ a => art_size a = Z.of_nat (length (payload a)))
       (ArtifactStore.artifacts s).

(** How many candidates the loop deletes, from the sizes alone. *)
Fixpoint needed (low total : Z) (cands : list (Key * Artifact)) : nat :=
  match cands with
  | [] => O
  | ka :: rest =>
      if total <=? low then O else S (needed low (total - art_size ka.2) rest)
  end.

(** The keys the age pass deletes. *)
Definition aged_out (cfg : CleanFlagsT) (now : Time) (snap : list (Key * Artifact)) : list Key :=
  (filter (fun ka => ~ Evictor.fresh cfg now ka) snap).*1.

(** The candidates of the size pass, in the order it takes them. *)
Definition candidates (cfg : CleanFlagsT) (now : Time) (s : ArtifactStore.t)
  : list (Key * Artifact) :=
  Evictor.lru_order (filter (Evictor.fresh cfg now) (Evictor.snapshot s)).

(** ** A concrete store *)

(** A store of four artifacts of 3, 2, 3 and 2 bytes, last read at times
    40, 10, 10 and 30. *)
Definition four_artifacts : ArtifactStore.t :=
  RequestRouter.serve_all
    [ RequestRouter.ReqStore CapWrite 40 "a" bytes_abc;
      RequestRouter.ReqStore CapWrite 10 "c" bytes_de;
      RequestRouter.ReqStore CapWrite 10 "b" bytes_abc;
      RequestRouter.ReqStore CapWrite 30 "d" bytes_de ]
    ArtifactStore.empty.

Definition small_marks (low high age : Z) : CleanFlagsT :=
  {| LowWaterMark := low; HighWaterMark := high; CleanFrequency := 600; MaxArtifactAge := age |}.

(** * Further observations on [main] *)

Definition is_lookup (e : Event) : bool :=
  match e with LookupIP _ => true | _ => false end.
Definition is_metrics (e : Event) : bool :=
  match e with RegisterMetrics => true | _ => false end.
Definition is_init_logging (e : Event) : bool :=
  match e with InitLogging _ | InitFileLogging _ _ => true | _ => false end.

(** The calls of a run that satisfy [p], in order, and how many there are. *)
Definition calls {A} (p : Event -> bool) (m : Proc.t A) : list Event :=
  List.filter p (trace m).
Definition times {A} (p : Event -> bool) (m : Proc.t A) : nat :=
  length (calls p m).

(** [opts] with other cluster flags: the same command line but for
    [--seed_cluster], [--cluster_size] or [--cluster_addresses]. *)
Definition with_cluster_flags (cf : ClusterFlagsT) (o : Opts) : Opts :=
  {| Port := Port o; HTTPPort := HTTPPort o; MetricsPort := MetricsPort o;
     Dir := Dir o; Verbosity := Verbosity o; LogFile := LogFile o;
     CleanFlags := CleanFlags o; TLSFlags := TLSFlags o; ClusterFlags := cf |}.

Definition with_seed_cluster (b : bool) (o : Opts) : Opts :=
  with_cluster_flags
    {| ClusterPort := ClusterPort (ClusterFlags o);
       ClusterAddresses := ClusterAddresses (ClusterFlags o);
       SeedCluster := b;
       ClusterSize := ClusterSize (ClusterFlags o);
       NodeName := NodeName (ClusterFlags o);
       SeedIf := SeedIf (ClusterFlags o);
       AdvertiseAddr := AdvertiseAddr (ClusterFlags o) |} o.

Definition with_cluster_size (n : Z) (o : Opts) : Opts :=
  with_cluster_flags
    {| ClusterPort := ClusterPort (ClusterFlags o);
       ClusterAddresses := ClusterAddresses (ClusterFlags o);
       SeedCluster := SeedCluster (ClusterFlags o);
       ClusterSize := n;
       NodeName := NodeName (ClusterFlags o);
       SeedIf := SeedIf (ClusterFlags o);
       AdvertiseAddr := AdvertiseAddr (ClusterFlags o) |} o.

Definition with_cluster_addresses (a : string) (o : Opts) : Opts :=
  with_cluster_flags
    {| ClusterPort := ClusterPort (ClusterFlags o);
       ClusterAddresses := a;
       SeedCluster := SeedCluster (ClusterFlags o);
       ClusterSize := ClusterSize (ClusterFlags o);
       NodeName := NodeName (ClusterFlags o);
       SeedIf := SeedIf (ClusterFlags o);
       AdvertiseAddr := AdvertiseAddr (ClusterFlags o) |} o.

(** Go's [strings.Join(pieces, sep)] and [strings.Count(s, sep)] for a
    one-character separator. *)
Definition join_with (sep : ascii) (pieces : list string) : string :=
  String.concat (String sep EmptyString) pieces.

Fixpoint count_char (c : ascii) (s : string) : nat :=
  match s with
  | EmptyString => O
  | String c' rest => (if Ascii.eqb c' c then 1 else 0) + count_char c rest
  end.

(** The calls from [BuildGrpcServer] on: lines 107-119. *)
Definition grpc_calls (o : Opts) (clusta : option ClusterRef) : list Event :=
  (BuildGrpcServer (Port o) clusta (KeyFile (TLSFlags o)) (CertFile (TLSFlags o))
     (CACertFile (TLSFlags o)) (ReadonlyCerts (TLSFlags o)) (WritableCerts (TLSFlags o))
   :: (if negb (MetricsPort o =? 0) then
         [ RegisterMetrics;
           Notice ("Serving Prometheus metrics on port " ++ fmt_d (MetricsPort o) ++ " /metrics");
           Go (ServeMetrics (":" ++ fmt_d (MetricsPort o))) ]
       else [])
   ++ [ServeGrpcForever])%list.

(** ** The process and its goroutines *)

(** The goroutines a run starts, in order. *)
Definition started {A} (m : Proc.t A) : list Goroutine :=
  omap (fun e => match e with Go g => Some g | _ => None end) (trace m).

(** What a goroutine does when the call it makes returns with error [e]:
    lines 98 and 100 are [log.Fatalf("%s\n", e)], which ends the process
    with that message; line 116 ignores the error. *)
Definition on_return (g : Goroutine) (e : string) : option string :=
  match g with
  | ListenAndServeTLS _ _ _ => Some (e ++ newline)
  | ListenAndServe _ => Some (e ++ newline)
  | ServeMetrics _ => None
  end.

(** The listeners of the machine: for each goroutine the error its call
    returns with, if it ever returns (a port in use, a key or certificate
    file that cannot be read). *)
Definition Listeners := Goroutine -> option string.

(** The message of the first started goroutine that ends the process. *)
Fixpoint goroutine_fatal (ls : Listeners) (gs : list Goroutine) : option string :=
  match gs with
  | [] => None
  | g :: rest =>
      match ls g with
      | Some e =>
          match on_return g e with
          | Some msg => Some msg
          | None => goroutine_fatal ls rest
          end
      | None => goroutine_fatal ls rest
      end
  end.

(** How the process ends: in a [log.Fatalf] of [main], in the [log.Fatalf]
    of a goroutine whose listener returned, or not at all ([Done]: the gRPC
    server keeps serving). *)
Definition process_end (net : Resolver) (ls : Listeners) (o : Opts) : Proc.End unit :=
  match outcome (main net o) with
  | Fatal msg => Fatal msg
  | Done _ =>
      match goroutine_fatal ls (started (main net o)) with
      | Some msg => Fatal msg
      | None => Done tt
      end
  end.

(** Listeners that never return, and listeners that cannot open the key
    file. *)
Definition listening : Listeners := fun _ => None.
Definition unreadable_key : Listeners := fun g =>
  match g with
  | ListenAndServeTLS _ _ _ => Some "open key.pem: no such file or directory"
  | _ => None
  end.

(** A node passed [--seed_cluster] and a [--seed_if] of its own name, with
    peers that resolve and a cluster size too small to seed. *)
Definition seed_if_small : ClusterFlagsT :=
  {| ClusterPort := 7946; ClusterAddresses := "cache-peers";
     SeedCluster := true; ClusterSize := 1; NodeName := "cache-0";
     SeedIf := "cache-0"; AdvertiseAddr := "" |}.

(** A node told to join two peers. *)
Definition join_peers : ClusterFlagsT :=
  {| ClusterPort := 7946; ClusterAddresses := "cache-1:7946,cache-2:7946";
     SeedCluster := false; ClusterSize := 0; NodeName := "cache-3";
     SeedIf := ""; AdvertiseAddr := "" |}.

Definition opts_with_metrics (metrics : Z) (tls : TLSFlagsT) (cf : ClusterFlagsT) : Opts :=
  {| Port := 7677; HTTPPort := 8080; MetricsPort := metrics; Dir := "plz-rpc-cache";
     Verbosity := 2; LogFile := "cache.log"; CleanFlags := default_clean;
     TLSFlags := tls; ClusterFlags := cf |}.

(** * Properties of [main] *)

(** ** Small concrete runs *)

Example split_two : split_on comma "a:1,b:2" = ["a:1"; "b:2"].
Proof. reflexivity. Qed.

Example split_trailing : split_on comma "a," = ["a"; ""].
Proof. reflexivity. Qed.

Example fmt_d_port : fmt_d 7677 = "7677".
Proof. reflexivity. Qed.

Example standalone_run :
  main resolves (opts_of 0 no_tls standalone)
  = ([ InitLogging 2;
       Notice "Scanning existing cache directory plz-rpc-cache...";
       NewCache "plz-rpc-cache" 600000000000 2592000000000000 18000000000 20000000000;
       Notice "Starting up RPC cache server on port 7677...";
       BuildGrpcServer 7677 None "" "" "" "" "";
       ServeGrpcForever ], Done tt).
Proof. reflexivity. Qed.

(** ** The shape of every run *)

Lemma check_tls_run tls :
  check_tls tls
  = if key_cert_mismatch tls then ([], Fatal msg_key_cert)
    else if certs_without_key tls then ([], Fatal msg_certs_need_tls)
    else ([], Done tt).
Proof. reflexivity. Qed.

Lemma apply_seed_if_run net cf :
  apply_seed_if net cf
  = (if seed_if_applies cf then [LookupIP (ClusterAddresses cf)] else [],
     Done (seed_decision net cf)).
Proof.
  unfold apply_seed_if, seed_decision.
  destruct (seed_if_applies cf); reflexivity.
Qed.

Lemma setup_cluster_run o seed :
  setup_cluster o seed
  = if seed && (ClusterSize (ClusterFlags o) <? 2) then ([], Fatal msg_cluster_size)
    else (cluster_calls o seed, Done (clusta_of o seed)).
Proof.
  unfold setup_cluster, cluster_calls, clusta_of.
  destruct seed; simpl.
  - destruct (ClusterSize (ClusterFlags o) <? 2); reflexivity.
  - destruct (non_empty (ClusterAddresses (ClusterFlags o))); reflexivity.
Qed.

(** Every run of [main] has one of four shapes: it dies on the key/cert
    check, on the certificates check, on the cluster size check, or it
    reaches [ServeGrpcForever]. *)
Lemma main_run net o :
  main net o
  = if key_cert_mismatch (TLSFlags o) then (logging_calls o, Fatal msg_key_cert)
    else if certs_without_key (TLSFlags o) then (logging_calls o, Fatal msg_certs_need_tls)
    else if seed_decision net (ClusterFlags o) && (ClusterSize (ClusterFlags o) <? 2) then
      ((logging_calls o ++ cache_calls o)%list, Fatal msg_cluster_size)
    else
      ((logging_calls o ++ cache_calls o
        ++ cluster_calls o (seed_decision net (ClusterFlags o))
        ++ serving_calls o (clusta_of o (seed_decision net (ClusterFlags o))))%list,
       Done tt).
Proof.
  unfold main.
  rewrite check_tls_run, apply_seed_if_run.
  unfold logging_calls, cache_calls, serving_calls.
  destruct (non_empty (LogFile o));
    destruct (key_cert_mismatch (TLSFlags o)); try reflexivity;
    destruct (certs_without_key (TLSFlags o)); try reflexivity;
    destruct (seed_if_applies (ClusterFlags o));
    cbn [mbind proc_bind Proc.bind emit when Proc.ret mret proc_ret app];
    rewrite setup_cluster_run;
    destruct (seed_decision net (ClusterFlags o) && (ClusterSize (ClusterFlags o) <? 2));
    try reflexivity;
    destruct (negb (HTTPPort o =? 0)); destruct (negb (MetricsPort o =? 0));
    cbn [mbind proc_bind Proc.bind emit when Proc.ret mret proc_ret app];
    rewrite ?app_nil_r; reflexivity.
Qed.

(** *** Facts about the segments *)

Lemma is_empty_true s : is_empty s = true <-> s = "".
Proof. apply String.eqb_eq. Qed.

Lemma is_empty_false s : is_empty s = false <-> s <> "".
Proof. apply String.eqb_neq. Qed.

Lemma non_empty_true s : non_empty s = true <-> s <> "".
Proof. unfold non_empty. rewrite negb_true_iff. apply is_empty_false. Qed.

Lemma non_empty_false s : non_empty s = false <-> s = "".
Proof. unfold non_empty. rewrite negb_false_iff. apply is_empty_true. Qed.

Lemma key_cert_mismatch_true tls :
  key_cert_mismatch tls = true
  <-> (KeyFile tls = "" /\ CertFile tls <> "") \/ (KeyFile tls <> "" /\ CertFile tls = "").
Proof.
  unfold key_cert_mismatch.
  destruct (is_empty (KeyFile tls)) eqn:K; destruct (is_empty (CertFile tls)) eqn:C;
    first [apply is_empty_true in K | apply is_empty_false in K];
    first [apply is_empty_true in C | apply is_empty_false in C];
    simpl; split; intros H; try discriminate; try tauto;
    destruct H as [[? ?]|[? ?]]; contradiction.
Qed.

Lemma certs_without_key_true tls :
  certs_without_key tls = true
  <-> KeyFile tls = "" /\ (WritableCerts tls <> "" \/ ReadonlyCerts tls <> "").
Proof.
  unfold certs_without_key.
  rewrite andb_true_iff, orb_true_iff, is_empty_true, !non_empty_true. reflexivity.
Qed.

(** Nothing is constructed or started while the flags are being checked. *)
Lemma logging_calls_quiet o (p : Event -> bool) :
  (forall v, p (InitLogging v) = false) ->
  (forall f v, p (InitFileLogging f v) = false) ->
  existsb p (logging_calls o) = false.
Proof.
  intros H1 H2. unfold logging_calls.
  destruct (non_empty (LogFile o)); simpl; rewrite ?H1, ?H2; reflexivity.
Qed.

Lemma cache_calls_quiet o (p : Event -> bool) :
  (forall m, p (Notice m) = false) ->
  (forall d f a l h, p (NewCache d f a l h) = false) ->
  (forall h, p (LookupIP h) = false) ->
  existsb p (cache_calls o) = false.
Proof.
  intros H1 H2 H3. unfold cache_calls.
  destruct (seed_if_applies (ClusterFlags o)); simpl; rewrite ?H1, ?H2, ?H3; reflexivity.
Qed.

Lemma main_fatal_iff net o : is_fatal (main net o) = config_error net o.
Proof.
  unfold is_fatal, config_error. rewrite main_run.
  destruct (key_cert_mismatch (TLSFlags o)); [reflexivity|].
  destruct (certs_without_key (TLSFlags o)); [reflexivity|].
  destruct (seed_decision net (ClusterFlags o) && (ClusterSize (ClusterFlags o) <? 2));
    reflexivity.
Qed.

(** A run that dies has built no server, started no goroutine and served
    nothing; it can only have scanned the cache directory. *)
Lemma fatal_run_is_quiet net o :
  is_fatal (main net o) = true ->
  happens is_build (main net o) = false
  /\ happens is_serve (main net o) = false
  /\ happens is_go (main net o) = false
  /\ happens is_handle (main net o) = false
  /\ happens is_new_cluster (main net o) = false.
Proof.
  unfold is_fatal, happens. rewrite main_run.
  destruct (key_cert_mismatch (TLSFlags o));
    [intros _; repeat split; apply logging_calls_quiet; reflexivity|].
  destruct (certs_without_key (TLSFlags o));
    [intros _; repeat split; apply logging_calls_quiet; reflexivity|].
  destruct (seed_decision net (ClusterFlags o) && (ClusterSize (ClusterFlags o) <? 2));
    [|discriminate].
  intros _. cbn [trace fst].
  repeat split; rewrite existsb_app, logging_calls_quiet, cache_calls_quiet; reflexivity.
Qed.

(** A run that dies on a TLS check has not even opened the cache. *)
Lemma tls_fatal_before_cache net o :
  tls_flags_ok (TLSFlags o) = false ->
  happens is_new_cache (main net o) = false.
Proof.
  unfold tls_flags_ok, happens. rewrite main_run.
  destruct (key_cert_mismatch (TLSFlags o));
    [intros _; apply logging_calls_quiet; reflexivity|].
  destruct (certs_without_key (TLSFlags o));
    [intros _; apply logging_calls_quiet; reflexivity|].
  discriminate.
Qed.

(** ** Startup validation *)

(** C9. A configuration with exactly one of [--key_file] and [--cert_file]
    (one empty, the other not) dies with the key/cert message, before the
    cache is opened and before the gRPC server is built or served. *)
Theorem one_of_key_cert_is_fatal net o :
  (KeyFile (TLSFlags o) = "" /\ CertFile (TLSFlags o) <> "")
  \/ (KeyFile (TLSFlags o) <> "" /\ CertFile (TLSFlags o) = "") ->
  outcome (main net o) = Fatal msg_key_cert
  /\ happens is_new_cache (main net o) = false
  /\ happens is_build (main net o) = false
  /\ happens is_serve (main net o) = false.
Proof.
  intros H. apply key_cert_mismatch_true in H.
  assert (F : is_fatal (main net o) = true).
  { rewrite main_fatal_iff. unfold config_error. rewrite H. reflexivity. }
  destruct (fatal_run_is_quiet net o F) as (B & S & _).
  repeat split; try assumption.
  - rewrite main_run, H. reflexivity.
  - apply tls_fatal_before_cache. unfold tls_flags_ok. rewrite H. reflexivity.
Qed.

Lemma one_of_key_cert_is_fatal_witness :
  outcome (main resolves (opts_of 8080 key_only standalone)) = Fatal msg_key_cert
  /\ happens is_new_cache (main resolves (opts_of 8080 key_only standalone)) = false
  /\ happens is_build (main resolves (opts_of 8080 key_only standalone)) = false
  /\ happens is_serve (main resolves (opts_of 8080 key_only standalone)) = false.
Proof.
  apply (one_of_key_cert_is_fatal resolves (opts_of 8080 key_only standalone)).
  right. split; [discriminate | reflexivity].
Defined.

(** C3. A configuration that passes [--writable_certs] or
    [--readonly_certs] without a complete server key/cert pair dies at
    startup, before the cache is opened, the server built or anything served
    or listened on.  With neither key nor certificate the message is the one
    of line 66; with only one of them it is the one of line 64. *)
Theorem certs_without_server_pair_is_fatal net o :
  WritableCerts (TLSFlags o) <> "" \/ ReadonlyCerts (TLSFlags o) <> "" ->
  ~ (KeyFile (TLSFlags o) <> "" /\ CertFile (TLSFlags o) <> "") ->
  exists msg,
    outcome (main net o) = Fatal msg
    /\ (msg = if is_empty (KeyFile (TLSFlags o)) && is_empty (CertFile (TLSFlags o))
              then msg_certs_need_tls else msg_key_cert)
    /\ happens is_new_cache (main net o) = false
    /\ happens is_build (main net o) = false
    /\ happens is_serve (main net o) = false
    /\ happens is_go (main net o) = false.
Proof.
  intros HC HP.
  assert (T : tls_flags_ok (TLSFlags o) = false).
  { unfold tls_flags_ok.
    destruct (key_cert_mismatch (TLSFlags o)) eqn:M; [reflexivity|].
    assert (C : certs_without_key (TLSFlags o) = true).
    { apply certs_without_key_true. split; [|exact HC].
      destruct (is_empty (KeyFile (TLSFlags o))) eqn:K;
        [now apply is_empty_true|].
      exfalso. apply HP. unfold key_cert_mismatch in M. rewrite K in M.
      destruct (is_empty (CertFile (TLSFlags o))) eqn:C; [discriminate|].
      split; now apply is_empty_false. }
    rewrite C. reflexivity. }
  assert (F : is_fatal (main net o) = true).
  { rewrite main_fatal_iff. unfold config_error. unfold tls_flags_ok in T.
    destruct (key_cert_mismatch (TLSFlags o)); [reflexivity|].
    destruct (certs_without_key (TLSFlags o)); [reflexivity|discriminate]. }
  destruct (fatal_run_is_quiet net o F) as (B & S & G & _).
  pose proof (tls_fatal_before_cache net o T) as NC.
  eexists. split; [|repeat split; try eassumption; reflexivity].
  rewrite main_run. unfold tls_flags_ok in T.
  unfold key_cert_mismatch, certs_without_key in *.
  destruct (is_empty (KeyFile (TLSFlags o))); destruct (is_empty (CertFile (TLSFlags o)));
    simpl in *; try reflexivity; [|discriminate].
  destruct (non_empty (WritableCerts (TLSFlags o)) || non_empty (ReadonlyCerts (TLSFlags o)));
    [reflexivity | discriminate].
Qed.

Lemma certs_without_server_pair_is_fatal_witness :
  exists msg,
    outcome (main resolves (opts_of 8080 certs_only standalone)) = Fatal msg
    /\ msg = msg_certs_need_tls
    /\ happens is_new_cache (main resolves (opts_of 8080 certs_only standalone)) = false
    /\ happens is_build (main resolves (opts_of 8080 certs_only standalone)) = false
    /\ happens is_serve (main resolves (opts_of 8080 certs_only standalone)) = false
    /\ happens is_go (main resolves (opts_of 8080 certs_only standalone)) = false.
Proof.
  apply (certs_without_server_pair_is_fatal resolves (opts_of 8080 certs_only standalone)).
  - left. discriminate.
  - intros [K _]. apply K. reflexivity.
Defined.

(** ** Seeding *)

Lemma serving_calls_no (p : Event -> bool) o clusta :
  (forall m, p (Notice m) = false) ->
  (forall pat h, p (HandleFunc pat h) = false) ->
  (forall g, p (Go g) = false) ->
  (forall port c k ce ca r w, p (BuildGrpcServer port c k ce ca r w) = false) ->
  p RegisterMetrics = false ->
  p ServeGrpcForever = false ->
  existsb p (serving_calls o clusta) = false.
Proof.
  intros H1 H2 H3 H4 H5 H6. unfold serving_calls.
  destruct (negb (HTTPPort o =? 0)); destruct (negb (MetricsPort o =? 0)); simpl;
    rewrite ?H1, ?H2, ?H3, ?H4, ?H5, ?H6; reflexivity.
Qed.

(** A run that passes the three checks. *)
Lemma main_run_ok net o :
  config_error net o = false ->
  main net o
  = ((logging_calls o ++ cache_calls o
      ++ cluster_calls o (seed_decision net (ClusterFlags o))
      ++ serving_calls o (clusta_of o (seed_decision net (ClusterFlags o))))%list,
     Done tt).
Proof.
  unfold config_error. intros H. rewrite main_run.
  destruct (key_cert_mismatch (TLSFlags o)); [discriminate|].
  destruct (certs_without_key (TLSFlags o)); [discriminate|].
  simpl in H. rewrite H. reflexivity.
Qed.

Lemma In_serving_build o clusta :
  In (BuildGrpcServer (Port o) clusta (KeyFile (TLSFlags o)) (CertFile (TLSFlags o))
        (CACertFile (TLSFlags o)) (ReadonlyCerts (TLSFlags o)) (WritableCerts (TLSFlags o)))
     (serving_calls o clusta).
Proof.
  unfold serving_calls. apply in_or_app. right. right. left. reflexivity.
Qed.

Lemma In_serving_serve o clusta : In ServeGrpcForever (serving_calls o clusta).
Proof.
  unfold serving_calls. do 3 (apply in_or_app; right). left. reflexivity.
Qed.

(** C2, as stated, fails: with [--seed_cluster] passed and a cluster size of
    1, a node whose [--seed_if] names it and whose peers resolve has the flag
    overwritten at line 77; it passes line 79 without a word about the
    cluster size, joins its peers and serves. *)
Lemma seed_cluster_flag_overridden_by_seed_if :
  SeedCluster (ClusterFlags (opts_of 0 no_tls seed_if_small)) = true
  /\ ClusterSize (ClusterFlags (opts_of 0 no_tls seed_if_small)) < 2
  /\ resolves "cache-peers" = {| ips := ["10.0.0.1"]; err := None |}
  /\ outcome (main resolves (opts_of 0 no_tls seed_if_small)) = Done tt
  /\ trace (main resolves (opts_of 0 no_tls seed_if_small))
     = [ InitLogging 2;
         Notice "Scanning existing cache directory plz-rpc-cache...";
         NewCache "plz-rpc-cache" 600000000000 2592000000000000 18000000000 20000000000;
         LookupIP "cache-peers";
         NewCluster (new_cluster (opts_of 0 no_tls seed_if_small));
         ClusterJoin (new_cluster (opts_of 0 no_tls seed_if_small)) ["cache-peers"];
         Notice "Starting up RPC cache server on port 7677...";
         BuildGrpcServer 7677 (Some (new_cluster (opts_of 0 no_tls seed_if_small)))
           "" "" "" "" "";
         ServeGrpcForever ].
Proof.
  split; [reflexivity|]. split; [reflexivity|]. repeat split; reflexivity.
Qed.

(** C2, amended.  When [opts.ClusterFlags.SeedCluster] is true at line 79,
    that is after the [--seed_if] override of lines 75-78, and the
    cluster size is below 2, the run dies: nothing is built, served or
    listened on and no cluster is created; the message is the cluster size
    one whenever the TLS flags passed their checks.  With a cluster size of
    2 or more the cluster size check never kills the run, and a run whose TLS
    flags are in order creates the cluster, calls [Init] with the configured
    size, hands the cluster to the gRPC server and serves. *)
Theorem seed_needs_cluster_size net o :
  seed_decision net (ClusterFlags o) = true ->
  (ClusterSize (ClusterFlags o) < 2 ->
     is_fatal (main net o) = true
     /\ (tls_flags_ok (TLSFlags o) = true -> outcome (main net o) = Fatal msg_cluster_size)
     /\ happens is_new_cluster (main net o) = false
     /\ happens is_build (main net o) = false
     /\ happens is_serve (main net o) = false
     /\ happens is_go (main net o) = false)
  /\ (2 <= ClusterSize (ClusterFlags o) ->
     outcome (main net o) <> Fatal msg_cluster_size
     /\ (tls_flags_ok (TLSFlags o) = true ->
         outcome (main net o) = Done tt
         /\ In (NewCluster (new_cluster o)) (trace (main net o))
         /\ In (ClusterInit (new_cluster o) (ClusterSize (ClusterFlags o))) (trace (main net o))
         /\ happens is_join (main net o) = false
         /\ In (BuildGrpcServer (Port o) (Some (new_cluster o)) (KeyFile (TLSFlags o))
                  (CertFile (TLSFlags o)) (CACertFile (TLSFlags o))
                  (ReadonlyCerts (TLSFlags o)) (WritableCerts (TLSFlags o)))
               (trace (main net o))
         /\ In ServeGrpcForever (trace (main net o)))).
Proof.
  intros Hseed. split.
  - intros Hsize. apply Z.ltb_lt in Hsize.
    assert (F : is_fatal (main net o) = true).
    { rewrite main_fatal_iff. unfold config_error. rewrite Hseed, Hsize.
      simpl. apply orb_true_r. }
    destruct (fatal_run_is_quiet net o F) as (B & S & G & _ & NC).
    repeat split; try assumption.
    unfold tls_flags_ok. intros T. rewrite main_run.
    destruct (key_cert_mismatch (TLSFlags o)); [discriminate|].
    destruct (certs_without_key (TLSFlags o)); [discriminate|].
    rewrite Hseed, Hsize. reflexivity.
  - intros Hsize. apply Z.ltb_ge in Hsize. split.
    + rewrite main_run, Hseed, Hsize.
      destruct (key_cert_mismatch (TLSFlags o)); [discriminate|].
      destruct (certs_without_key (TLSFlags o)); discriminate.
    + unfold tls_flags_ok. intros T.
      rewrite main_run_ok.
      2:{ unfold config_error. rewrite Hseed, Hsize.
          destruct (key_cert_mismatch (TLSFlags o)); [discriminate|].
          destruct (certs_without_key (TLSFlags o)); [discriminate|reflexivity]. }
      rewrite Hseed. unfold happens. cbn [trace outcome fst snd cluster_calls clusta_of].
      split; [reflexivity|].
      split; [apply in_or_app; right; apply in_or_app; right; left; reflexivity|].
      split; [apply in_or_app; right; apply in_or_app; right; right; left; reflexivity|].
      split.
      { rewrite !existsb_app, logging_calls_quiet, cache_calls_quiet by reflexivity.
        rewrite serving_calls_no by reflexivity. reflexivity. }
      split; do 3 (apply in_or_app; right);
        [apply In_serving_build | apply In_serving_serve].
Qed.

Lemma seed_needs_cluster_size_witness :
  outcome (main resolves (opts_of 0 no_tls (seed_of_size 1))) = Fatal msg_cluster_size
  /\ In (ClusterInit (new_cluster (opts_of 0 no_tls (seed_of_size 3))) 3)
        (trace (main resolves (opts_of 0 no_tls (seed_of_size 3)))).
Proof.
  split.
  - apply (seed_needs_cluster_size resolves (opts_of 0 no_tls (seed_of_size 1)));
      [reflexivity | reflexivity | reflexivity].
  - apply (seed_needs_cluster_size resolves (opts_of 0 no_tls (seed_of_size 3)));
      [reflexivity | discriminate | reflexivity].
Defined.

(** C7. Whenever one of the startup checks fails (key without certificate
    or the reverse, client certificates without a server key, or seeding with
    a cluster size below 2) the run ends in [log.Fatalf] and its trace holds
    no [BuildGrpcServer], no [ServeGrpcForever], no registered handler and no
    goroutine: nothing is ever served. *)
Theorem config_error_never_serves net o :
  config_error net o = true ->
  (exists msg, outcome (main net o) = Fatal msg)
  /\ happens is_build (main net o) = false
  /\ happens is_serve (main net o) = false
  /\ happens is_go (main net o) = false
  /\ happens is_handle (main net o) = false.
Proof.
  intros H. rewrite <- main_fatal_iff in H.
  destruct (fatal_run_is_quiet net o H) as (B & S & G & HH & _).
  repeat split; try assumption.
  unfold is_fatal in H. destruct (outcome (main net o)) as [?|msg]; [discriminate|].
  exists msg. reflexivity.
Qed.

Lemma config_error_never_serves_witness :
  (exists msg, outcome (main resolves (opts_of 8080 with_tls (seed_of_size 1))) = Fatal msg)
  /\ happens is_build (main resolves (opts_of 8080 with_tls (seed_of_size 1))) = false
  /\ happens is_serve (main resolves (opts_of 8080 with_tls (seed_of_size 1))) = false
  /\ happens is_go (main resolves (opts_of 8080 with_tls (seed_of_size 1))) = false
  /\ happens is_handle (main resolves (opts_of 8080 with_tls (seed_of_size 1))) = false.
Proof.
  apply (config_error_never_serves resolves (opts_of 8080 with_tls (seed_of_size 1))).
  reflexivity.
Defined.

(** ** Running without a cluster *)

(** C10. When line 79 reads [SeedCluster] as false (after the [--seed_if]
    override) and [--cluster_addresses] is empty, no cluster is created:
    the trace holds no [NewCluster], [Init] or [Join], and any
    [BuildGrpcServer] in it receives a nil cluster.  If the TLS flags are in
    order the gRPC server is built, with a nil cluster, and served. *)
Theorem no_seed_no_peers_no_cluster net o :
  seed_decision net (ClusterFlags o) = false ->
  ClusterAddresses (ClusterFlags o) = "" ->
  happens is_new_cluster (main net o) = false
  /\ happens is_init (main net o) = false
  /\ happens is_join (main net o) = false
  /\ (forall e c, In e (trace (main net o)) -> built_with e = Some c -> c = None)
  /\ (tls_flags_ok (TLSFlags o) = true ->
      outcome (main net o) = Done tt
      /\ In (BuildGrpcServer (Port o) None (KeyFile (TLSFlags o)) (CertFile (TLSFlags o))
               (CACertFile (TLSFlags o)) (ReadonlyCerts (TLSFlags o))
               (WritableCerts (TLSFlags o)))
            (trace (main net o))
      /\ In ServeGrpcForever (trace (main net o))).
Proof.
  intros Hseed Haddr.
  assert (CC : cluster_calls o false = []).
  { unfold cluster_calls. apply non_empty_false in Haddr. rewrite Haddr. reflexivity. }
  assert (CO : clusta_of o false = None).
  { unfold clusta_of. apply non_empty_false in Haddr. rewrite Haddr. reflexivity. }
  assert (Q : forall p : Event -> bool,
             (forall v, p (InitLogging v) = false) ->
             (forall f v, p (InitFileLogging f v) = false) ->
             (forall m, p (Notice m) = false) ->
             (forall d f a l h, p (NewCache d f a l h) = false) ->
             (forall h, p (LookupIP h) = false) ->
             (forall pat h, p (HandleFunc pat h) = false) ->
             (forall g, p (Go g) = false) ->
             (forall port c k ce ca r w, p (BuildGrpcServer port c k ce ca r w) = false) ->
             p RegisterMetrics = false ->
             p ServeGrpcForever = false ->
             happens p (main net o) = false).
  { intros p P1 P2 P3 P4 P5 P6 P7 P8 P9 P10. unfold happens. rewrite main_run, Hseed.
    destruct (key_cert_mismatch (TLSFlags o)); [now apply logging_calls_quiet|].
    destruct (certs_without_key (TLSFlags o)); [now apply logging_calls_quiet|].
    cbn [andb trace fst]. rewrite CC, CO, !existsb_app.
    rewrite logging_calls_quiet, cache_calls_quiet, serving_calls_no by assumption.
    reflexivity. }
  split; [apply Q; reflexivity|].
  split; [apply Q; reflexivity|].
  split; [apply Q; reflexivity|].
  split.
  - intros e c. rewrite main_run, Hseed.
    destruct (key_cert_mismatch (TLSFlags o)).
    { cbn [trace fst]. unfold logging_calls.
      destruct (non_empty (LogFile o)); simpl; intros H B;
        repeat (destruct H as [<-|H]; [discriminate B|]); contradiction. }
    destruct (certs_without_key (TLSFlags o)).
    { cbn [trace fst]. unfold logging_calls.
      destruct (non_empty (LogFile o)); simpl; intros H B;
        repeat (destruct H as [<-|H]; [discriminate B|]); contradiction. }
    cbn [andb trace fst]. rewrite CC, CO.
    unfold logging_calls, cache_calls, serving_calls.
    destruct (non_empty (LogFile o)); destruct (seed_if_applies (ClusterFlags o));
      destruct (negb (HTTPPort o =? 0)); destruct (negb (MetricsPort o =? 0));
      simpl; intros H B;
      repeat (destruct H as [<-|H];
              [first [discriminate B | (simpl in B; congruence)]|]);
      contradiction.
  - unfold tls_flags_ok. intros T. rewrite main_run_ok.
    2:{ unfold config_error. rewrite Hseed.
        destruct (key_cert_mismatch (TLSFlags o)); [discriminate|].
        destruct (certs_without_key (TLSFlags o)); [discriminate|reflexivity]. }
    rewrite Hseed, CC, CO. cbn [trace outcome fst snd].
    split; [reflexivity|].
    split; do 3 (apply in_or_app; right);
      [apply In_serving_build | apply In_serving_serve].
Qed.

Lemma no_seed_no_peers_no_cluster_witness :
  happens is_new_cluster (main resolves (opts_of 8080 with_tls standalone)) = false
  /\ In (BuildGrpcServer 7677 None "key.pem" "cert.pem" "" "" "rw")
        (trace (main resolves (opts_of 8080 with_tls standalone))).
Proof.
  destruct (no_seed_no_peers_no_cluster resolves (opts_of 8080 with_tls standalone))
    as (NC & _ & _ & _ & B); [reflexivity | reflexivity |].
  split; [exact NC|].
  destruct B as (_ & B & _); [reflexivity | exact B].
Defined.

(** ** Seeding or joining *)

Example seed_with_peers_run :
  trace (main resolves (opts_of 0 no_tls (seed_with_peers "")))
  = [ InitLogging 2;
      Notice "Scanning existing cache directory plz-rpc-cache...";
      NewCache "plz-rpc-cache" 600000000000 2592000000000000 18000000000 20000000000;
      NewCluster (new_cluster (opts_of 0 no_tls (seed_with_peers "")));
      ClusterInit (new_cluster (opts_of 0 no_tls (seed_with_peers ""))) 3;
      Notice "Starting up RPC cache server on port 7677...";
      BuildGrpcServer 7677 (Some (new_cluster (opts_of 0 no_tls (seed_with_peers ""))))
        "" "" "" "" "";
      ServeGrpcForever ].
Proof. reflexivity. Qed.

(** A list of peers never resolves as one host name: with [--seed_if] the
    node then seeds. *)
Example seed_if_with_peers_run :
  trace (main resolves (opts_of 0 no_tls (seed_with_peers "cache-0")))
  = [ InitLogging 2;
      Notice "Scanning existing cache directory plz-rpc-cache...";
      NewCache "plz-rpc-cache" 600000000000 2592000000000000 18000000000 20000000000;
      LookupIP "cache-1:7946,cache-2:7946";
      NewCluster (new_cluster (opts_of 0 no_tls (seed_with_peers "cache-0")));
      ClusterInit (new_cluster (opts_of 0 no_tls (seed_with_peers "cache-0"))) 3;
      Notice "Starting up RPC cache server on port 7677...";
      BuildGrpcServer 7677 (Some (new_cluster (opts_of 0 no_tls (seed_with_peers "cache-0"))))
        "" "" "" "" "";
      ServeGrpcForever ].
Proof. reflexivity. Qed.

(** A host name that resolves: with [--seed_if] the node joins it. *)
Example seed_if_with_host_run :
  trace (main resolves (opts_of 0 no_tls (seed_with_host "cache-0")))
  = [ InitLogging 2;
      Notice "Scanning existing cache directory plz-rpc-cache...";
      NewCache "plz-rpc-cache" 600000000000 2592000000000000 18000000000 20000000000;
      LookupIP "cache-peers";
      NewCluster (new_cluster (opts_of 0 no_tls (seed_with_host "cache-0")));
      ClusterJoin (new_cluster (opts_of 0 no_tls (seed_with_host "cache-0"))) ["cache-peers"];
      Notice "Starting up RPC cache server on port 7677...";
      BuildGrpcServer 7677 (Some (new_cluster (opts_of 0 no_tls (seed_with_host "cache-0"))))
        "" "" "" "" "";
      ServeGrpcForever ].
Proof. reflexivity. Qed.

(** Without [--seed_if] the node seeds, and the host is not looked up. *)
Example seed_with_host_run :
  trace (main resolves (opts_of 0 no_tls (seed_with_host "")))
  = [ InitLogging 2;
      Notice "Scanning existing cache directory plz-rpc-cache...";
      NewCache "plz-rpc-cache" 600000000000 2592000000000000 18000000000 20000000000;
      NewCluster (new_cluster (opts_of 0 no_tls (seed_with_host "")));
      ClusterInit (new_cluster (opts_of 0 no_tls (seed_with_host ""))) 3;
      Notice "Starting up RPC cache server on port 7677...";
      BuildGrpcServer 7677 (Some (new_cluster (opts_of 0 no_tls (seed_with_host ""))))
        "" "" "" "" "";
      ServeGrpcForever ].
Proof. reflexivity. Qed.





(** ** The status endpoint *)

Example status_body :
  body (status_handler {| TotalSize := 1048576; NumFiles := 12 |})
  = "Total size: 1048576 bytes" ++ newline ++ "Num files: 12" ++ newline.
Proof. reflexivity. Qed.

Example status_tls_run :
  trace (main resolves (opts_of 8080 with_tls standalone))
  = [ InitLogging 2;
      Notice "Scanning existing cache directory plz-rpc-cache...";
      NewCache "plz-rpc-cache" 600000000000 2592000000000000 18000000000 20000000000;
      HandleFunc "/" status_handler;
      Go (ListenAndServeTLS ":8080" "cert.pem" "key.pem");
      Notice "Serving HTTP stats on port 8080";
      Notice "Starting up RPC cache server on port 7677...";
      BuildGrpcServer 7677 None "key.pem" "cert.pem" "" "" "rw";
      ServeGrpcForever ].
Proof. reflexivity. Qed.

Lemma In_serving_calls_main net o e :
  config_error net o = false ->
  In e (serving_calls o (clusta_of o (seed_decision net (ClusterFlags o)))) ->
  In e (trace (main net o)).
Proof.
  intros OK H. rewrite main_run_ok by assumption. cbn [trace fst].
  do 3 (apply in_or_app; right). exact H.
Qed.

Lemma happens_listener net o (p : Event -> bool) :
  (forall v, p (InitLogging v) = false) ->
  (forall f v, p (InitFileLogging f v) = false) ->
  (forall m, p (Notice m) = false) ->
  (forall d f a l h, p (NewCache d f a l h) = false) ->
  (forall h, p (LookupIP h) = false) ->
  (forall c, p (NewCluster c) = false) ->
  (forall c n, p (ClusterInit c n) = false) ->
  (forall c a, p (ClusterJoin c a) = false) ->
  (forall pat h, p (HandleFunc pat h) = false) ->
  (forall port c k ce ca r w, p (BuildGrpcServer port c k ce ca r w) = false) ->
  (forall a, p (Go (ServeMetrics a)) = false) ->
  p RegisterMetrics = false ->
  p ServeGrpcForever = false ->
  p (Go (status_listener o)) = false ->
  happens p (main net o) = false.
Proof.
  intros P1 P2 P3 P4 P5 P6 P7 P8 P9 P10 P11 P12 P13 PL. unfold happens.
  rewrite main_run.
  destruct (key_cert_mismatch (TLSFlags o)); [now apply logging_calls_quiet|].
  destruct (certs_without_key (TLSFlags o)); [now apply logging_calls_quiet|].
  destruct (seed_decision net (ClusterFlags o) && (ClusterSize (ClusterFlags o) <? 2));
    cbn [trace fst]; rewrite !existsb_app, logging_calls_quiet, cache_calls_quiet by assumption;
    [reflexivity|].
  cbn [orb]. apply orb_false_iff. split.
  - unfold cluster_calls.
    destruct (seed_decision net (ClusterFlags o));
      [|destruct (non_empty (ClusterAddresses (ClusterFlags o)))];
      simpl; rewrite ?P6, ?P7, ?P8; reflexivity.
  - unfold serving_calls.
    destruct (negb (HTTPPort o =? 0)); destruct (negb (MetricsPort o =? 0)); simpl;
      rewrite ?P3, ?P9, ?P10, ?P11, ?P12, ?P13, ?PL; reflexivity.
Qed.

(** C8. With [--http_port] set, a run that passes the startup checks
    registers one handler, at ["/"], whose reply is plain text made of the
    cache's total size and its number of files, and starts one goroutine for
    it: [ListenAndServeTLS] on that port with the server's certificate and
    key when [--key_file] is set (and then nothing is served in plaintext on
    it), [ListenAndServe] when it is not (and then nothing is served over
    TLS). *)
Theorem status_endpoint net o :
  HTTPPort o <> 0 ->
  config_error net o = false ->
  In (HandleFunc "/" status_handler) (trace (main net o))
  /\ (forall pat h, In (HandleFunc pat h) (trace (main net o)) ->
        pat = "/" /\
        forall c, h c = {| headers := [("Content-Type", "text/plain")];
                           body := "Total size: " ++ fmt_d (TotalSize c) ++ " bytes" ++ newline
                                   ++ "Num files: " ++ fmt_d (NumFiles c) ++ newline |})
  /\ (KeyFile (TLSFlags o) <> "" ->
        In (Go (ListenAndServeTLS (":" ++ fmt_d (HTTPPort o))
                  (CertFile (TLSFlags o)) (KeyFile (TLSFlags o))))
           (trace (main net o))
        /\ happens is_plain_listener (main net o) = false)
  /\ (KeyFile (TLSFlags o) = "" ->
        In (Go (ListenAndServe (":" ++ fmt_d (HTTPPort o)))) (trace (main net o))
        /\ happens is_tls_listener (main net o) = false).
Proof.
  intros HP OK. apply Z.eqb_neq in HP.
  assert (L : In (Go (status_listener o))
                (serving_calls o (clusta_of o (seed_decision net (ClusterFlags o))))).
  { unfold serving_calls. rewrite HP. simpl. right. left. reflexivity. }
  split; [|split; [|split]].
  - apply In_serving_calls_main; [assumption|].
    unfold serving_calls. rewrite HP. simpl. left. reflexivity.
  - intros pat h. rewrite main_run_ok by assumption. cbn [trace fst].
    unfold logging_calls, cache_calls, cluster_calls, serving_calls. rewrite HP.
    destruct (non_empty (LogFile o)); destruct (seed_if_applies (ClusterFlags o));
      destruct (seed_decision net (ClusterFlags o));
      destruct (non_empty (ClusterAddresses (ClusterFlags o)));
      destruct (negb (MetricsPort o =? 0)); simpl; intros H;
      repeat (destruct H as [H|H];
              [first [discriminate H | (injection H as <- <-; split; reflexivity)]|]);
      contradiction.
  - intros K. apply non_empty_true in K. split.
    + apply In_serving_calls_main; [assumption|].
      unfold status_listener in L. rewrite K in L. exact L.
    + apply happens_listener; try reflexivity.
      unfold status_listener. rewrite K. reflexivity.
  - intros K. apply non_empty_false in K. split.
    + apply In_serving_calls_main; [assumption|].
      unfold status_listener in L. rewrite K in L. exact L.
    + apply happens_listener; try reflexivity.
      unfold status_listener. rewrite K. reflexivity.
Qed.

Lemma status_endpoint_witness :
  In (Go (ListenAndServeTLS ":8080" "cert.pem" "key.pem"))
     (trace (main resolves (opts_of 8080 with_tls standalone)))
  /\ In (Go (ListenAndServe ":8080"))
        (trace (main resolves (opts_of 8080 no_tls standalone))).
Proof.
  split.
  - destruct (status_endpoint resolves (opts_of 8080 with_tls standalone))
      as (_ & _ & H & _); [discriminate | reflexivity |].
    apply H. discriminate.
  - destruct (status_endpoint resolves (opts_of 8080 no_tls standalone))
      as (_ & _ & _ & H); [discriminate | reflexivity |].
    apply H. reflexivity.
Defined.

(** * Properties of the storage engine *)

Example put_get :
  ArtifactStore.Get "k1" (ArtifactStore.Put 5 "k1" bytes_abc ArtifactStore.empty).2
  = Ok bytes_abc.
Proof. reflexivity. Qed.

Example put_put_stat :
  ArtifactStore.Stat
    (ArtifactStore.Put 7 "k1" bytes_de
       (ArtifactStore.Put 6 "k2" bytes_abc
          (ArtifactStore.Put 5 "k1" bytes_abc ArtifactStore.empty).2).2).2
  = {| TotalSize := 5; NumFiles := 2 |}.
Proof. reflexivity. Qed.

Example readonly_cannot_store :
  RequestRouter.Store CapRead 5 "k1" bytes_abc ArtifactStore.empty
  = (Failed PermissionDenied, ArtifactStore.empty).
Proof. reflexivity. Qed.

(** ** Delete *)

Lemma Delete_absent k s :
  ArtifactStore.artifacts s !! k = None ->
  ArtifactStore.Delete k s = (Ok tt, s).
Proof. intros H. unfold ArtifactStore.Delete. rewrite H. reflexivity. Qed.

Lemma Delete_succeeds k s : (ArtifactStore.Delete k s).1 = Ok tt.
Proof.
  unfold ArtifactStore.Delete.
  destruct (ArtifactStore.artifacts s !! k); reflexivity.
Qed.

Lemma Delete_removes k s :
  ArtifactStore.artifacts (ArtifactStore.Delete k s).2 !! k = None.
Proof.
  unfold ArtifactStore.Delete.
  destruct (ArtifactStore.artifacts s !! k) eqn:E; simpl;
    [apply lookup_delete_eq | exact E].
Qed.

Lemma Delete_artifacts k s :
  ArtifactStore.artifacts (ArtifactStore.Delete k s).2
  = delete k (ArtifactStore.artifacts s).
Proof.
  unfold ArtifactStore.Delete.
  destruct (ArtifactStore.artifacts s !! k) eqn:E; simpl; [reflexivity|].
  symmetry. apply delete_id. exact E.
Qed.

(** C6. Deleting a key that is not in the store reports success and leaves
    the store as it was; and from any store, deleting a key and deleting it
    again both report success, the second call changing nothing.  The same
    holds through the router for a client allowed to write. *)
Theorem delete_idempotent k s :
  (ArtifactStore.artifacts s !! k = None -> ArtifactStore.Delete k s = (Ok tt, s))
  /\ (ArtifactStore.Delete k s).1 = Ok tt
  /\ ArtifactStore.Delete k (ArtifactStore.Delete k s).2
     = (Ok tt, (ArtifactStore.Delete k s).2)
  /\ RequestRouter.Delete CapWrite k (RequestRouter.Delete CapWrite k s).2
     = (Ok tt, (RequestRouter.Delete CapWrite k s).2)
  /\ (RequestRouter.Delete CapWrite k s).1 = Ok tt.
Proof.
  split; [apply Delete_absent|].
  split; [apply Delete_succeeds|].
  split; [apply Delete_absent, Delete_removes|].
  unfold RequestRouter.Delete. simpl.
  split; [apply Delete_absent, Delete_removes | apply Delete_succeeds].
Qed.

Lemma delete_idempotent_witness :
  ArtifactStore.Delete "k1" ArtifactStore.empty = (Ok tt, ArtifactStore.empty).
Proof.
  apply (proj1 (delete_idempotent "k1" ArtifactStore.empty)). reflexivity.
Defined.

Example delete_twice :
  let s := (ArtifactStore.Put 5 "k1" bytes_abc ArtifactStore.empty).2 in
  ArtifactStore.Delete "k1" s = (Ok tt, ArtifactStore.empty)
  /\ ArtifactStore.Delete "k1" (ArtifactStore.Delete "k1" s).2 = (Ok tt, ArtifactStore.empty).
Proof. split; reflexivity. Qed.

(** ** Store, then Retrieve *)

Lemma serve_other_key r k s :
  RequestRouter.key_of r <> k ->
  ArtifactStore.Get k (RequestRouter.serve r s) = ArtifactStore.Get k s.
Proof.
  intros Hk. unfold ArtifactStore.Get.
  destruct r as [c now k' p | c now k' | c k']; simpl in Hk |- *.
  - unfold RequestRouter.Store. destruct (can_write c); simpl; [|reflexivity].
    rewrite lookup_insert_ne by exact Hk. reflexivity.
  - unfold RequestRouter.Retrieve. destruct (can_read c); simpl; [|reflexivity].
    destruct (ArtifactStore.Get k' s); simpl; [|reflexivity].
    rewrite lookup_alter_ne by exact Hk. reflexivity.
  - unfold RequestRouter.Delete. destruct (can_write c); simpl; [|reflexivity].
    rewrite Delete_artifacts, lookup_delete_ne by exact Hk. reflexivity.
Qed.

Lemma serve_all_other_keys rs k s :
  Forall (fun r => RequestRouter.key_of r <> k) rs ->
  ArtifactStore.Get k (RequestRouter.serve_all rs s) = ArtifactStore.Get k s.
Proof.
  unfold RequestRouter.serve_all.
  intros H. revert s. induction H as [|r rs Hr _ IH]; intros s; simpl; [reflexivity|].
  rewrite IH. apply serve_other_key, Hr.
Qed.

Lemma Get_Put now k p s :
  ArtifactStore.Get k (ArtifactStore.Put now k p s).2 = Ok p.
Proof.
  unfold ArtifactStore.Get, ArtifactStore.Put. simpl.
  rewrite lookup_insert_eq. reflexivity.
Qed.

(** C1. A client allowed to write stores a payload under a key; whatever
    [Store] calls on other keys take effect in between, from whatever
    clients, a [Retrieve] of that key by a client allowed to read then
    returns that very payload.  The last-access update of the read does not
    change what the key holds. *)
Theorem store_then_retrieve (c : Capability) (now now' : Time) (k : Key) (p : Payload)
    (others : list RequestRouter.Request) (s : ArtifactStore.t) :
  can_read c = true ->
  Forall (fun r => RequestRouter.is_store r = true /\ RequestRouter.key_of r <> k) others ->
  (RequestRouter.Store CapWrite now k p s).1 = Ok tt
  /\ (RequestRouter.Retrieve c now' k
        (RequestRouter.serve_all others (RequestRouter.Store CapWrite now k p s).2)).1
     = Ok p
  /\ ArtifactStore.Get k
       (RequestRouter.Retrieve c now' k
          (RequestRouter.serve_all others (RequestRouter.Store CapWrite now k p s).2)).2
     = Ok p.
Proof.
  intros Hc Hothers.
  assert (G : ArtifactStore.Get k
                (RequestRouter.serve_all others (RequestRouter.Store CapWrite now k p s).2)
              = Ok p).
  { rewrite serve_all_other_keys.
    - apply Get_Put.
    - eapply Forall_impl; [exact Hothers|]. intros r [_ H]. exact H. }
  set (s2 := RequestRouter.serve_all others (RequestRouter.Store CapWrite now k p s).2) in *.
  split; [reflexivity|].
  unfold RequestRouter.Retrieve. rewrite Hc, G. cbn [fst snd].
  split; [reflexivity|].
  unfold ArtifactStore.Get in *. unfold ArtifactStore.touch. cbn [ArtifactStore.artifacts].
  rewrite lookup_alter_eq.
  destruct (ArtifactStore.artifacts s2 !! k); [exact G | discriminate G].
Qed.

Lemma store_then_retrieve_witness :
  (RequestRouter.Retrieve CapRead 9 "k1"
     (RequestRouter.serve_all
        [RequestRouter.ReqStore CapWrite 6 "k2" bytes_de;
         RequestRouter.ReqStore CapWrite 7 "k3" bytes_abc]
        (RequestRouter.Store CapWrite 5 "k1" bytes_abc ArtifactStore.empty).2)).1
  = Ok bytes_abc.
Proof.
  apply (store_then_retrieve CapRead 5 9 "k1" bytes_abc
           [RequestRouter.ReqStore CapWrite 6 "k2" bytes_de;
            RequestRouter.ReqStore CapWrite 7 "k3" bytes_abc]
           ArtifactStore.empty).
  - reflexivity.
  - repeat constructor; discriminate.
Defined.

(** ** The evictor on a concrete store *)

Example four_artifacts_stat :
  ArtifactStore.Stat four_artifacts = {| TotalSize := 10; NumFiles := 4 |}.
Proof. reflexivity. Qed.

(** Above the high mark of 8: "b" then "c" go (both last read at 10, "b"
    first by key), which brings 10 bytes down to 5, at or below the low mark
    of 6. *)
Example cycle_four :
  (Evictor.cycle (small_marks 6 8 1000) 50 four_artifacts).2 = ["b"; "c"]
  /\ ArtifactStore.Stat (Evictor.cycle (small_marks 6 8 1000) 50 four_artifacts).1
     = {| TotalSize := 5; NumFiles := 2 |}.
Proof. split; reflexivity. Qed.

(** At or below the high mark nothing is deleted by size. *)
Example cycle_four_below :
  Evictor.cycle (small_marks 6 10 1000) 50 four_artifacts = (four_artifacts, []).
Proof. reflexivity. Qed.

(** Artifacts not read for more than 15 go whatever the size. *)
Example cycle_four_aged :
  ArtifactStore.Stat (Evictor.cycle (small_marks 6 10 15) 50 four_artifacts).1
  = {| TotalSize := 3; NumFiles := 1 |}.
Proof. reflexivity. Qed.

(** ** The eviction order *)

Lemma string_leb_iff a b :
  String.leb a b = true <-> String_as_OT.lt a b \/ a = b.
Proof.
  unfold String.leb. rewrite <- String_as_OT.cmp_lt, <- String_as_OT.cmp_eq.
  unfold String_as_OT.cmp. destruct (String.compare a b); intuition discriminate.
Qed.

Lemma string_ltb_iff a b : String.ltb a b = true <-> String_as_OT.lt a b.
Proof.
  unfold String.ltb. rewrite <- String_as_OT.cmp_lt.
  unfold String_as_OT.cmp. destruct (String.compare a b); intuition discriminate.
Qed.

Lemma string_leb_trans a b c :
  String.leb a b = true -> String.leb b c = true -> String.leb a c = true.
Proof.
  rewrite !string_leb_iff. intros [H1 | ->] [H2 | ->]; auto.
  left. eapply String_as_OT.lt_trans; eassumption.
Qed.

Lemma string_leb_ne_ltb a b :
  String.leb a b = true -> a <> b -> String.ltb a b = true.
Proof.
  rewrite string_leb_iff, string_ltb_iff. intros [H | H] Hne; [exact H | contradiction].
Qed.

Lemma lru_le_iff x y :
  Evictor.lru_le x y
  <-> last_access x.2 < last_access y.2
      \/ (last_access x.2 = last_access y.2 /\ String.leb x.1 y.1 = true).
Proof.
  unfold Evictor.lru_le, Evictor.lru_leb.
  rewrite orb_true_iff, andb_true_iff, Z.ltb_lt, Z.eqb_eq. reflexivity.
Qed.

#[export] Instance lru_le_total : Total Evictor.lru_le.
Proof.
  intros x y. rewrite !lru_le_iff.
  destruct (Z.lt_trichotomy (last_access x.2) (last_access y.2)) as [H | [H | H]];
    [left; left; exact H | | right; left; exact H].
  destruct (String.leb_total x.1 y.1) as [L | L];
    [left | right]; right; split; auto.
Qed.

#[export] Instance lru_le_trans : Transitive Evictor.lru_le.
Proof.
  intros x y z. rewrite !lru_le_iff.
  intros [H1 | [E1 L1]] [H2 | [E2 L2]]; try (left; lia).
  right. split; [lia|]. eapply string_leb_trans; eassumption.
Qed.

(** Between artifacts under different keys the order is strict. *)
Lemma lru_le_lt x y : Evictor.lru_le x y -> x.1 <> y.1 -> Evictor.lru_lt x y.
Proof.
  rewrite lru_le_iff. unfold Evictor.lru_lt.
  intros [H | [E L]] Hne; [left; exact H|].
  right. split; [exact E|]. apply string_leb_ne_ltb; assumption.
Qed.

Lemma lru_order_perm l : Evictor.lru_order l ≡ₚ l.
Proof. apply merge_sort_Permutation. Qed.

Lemma lru_order_sorted l : StronglySorted Evictor.lru_le (Evictor.lru_order l).
Proof. apply StronglySorted_merge_sort; apply _. Qed.

(** ** The aggregate size *)

Lemma sum_sizes_perm l1 l2 : l1 ≡ₚ l2 -> sum_sizes l1 = sum_sizes l2.
Proof.
  induction 1 as [|x l1 l2 _ IH|x y l|l1 l2 l3 _ IH1 _ IH2]; simpl;
    [reflexivity | rewrite IH; reflexivity | lia | congruence].
Qed.

Lemma sum_sizes_app l1 l2 : sum_sizes (l1 ++ l2)%list = sum_sizes l1 + sum_sizes l2.
Proof. induction l1 as [|x l1 IH]; simpl; [reflexivity | rewrite IH; lia]. Qed.

Lemma sum_sizes_nonneg l :
  Forall (fun ka : Key * Artifact => 0 <= art_size ka.2) l -> 0 <= sum_sizes l.
Proof. induction 1 as [|x l Hx _ IH]; simpl; lia. Qed.

Lemma well_formed_empty : well_formed ArtifactStore.empty.
Proof.
  split; [reflexivity|]. apply map_Forall_empty.
Qed.

Lemma well_formed_Delete k s :
  well_formed s -> well_formed (ArtifactStore.Delete k s).2.
Proof.
  intros [Hsum Hsz]. unfold ArtifactStore.Delete.
  destruct (ArtifactStore.artifacts s !! k) as [a|] eqn:E; simpl; [|split; assumption].
  split; simpl.
  - unfold Evictor.snapshot in *. simpl.
    rewrite Hsum, <- (sum_sizes_perm _ _ (map_to_list_delete _ _ _ E)). simpl. lia.
  - apply map_Forall_delete. exact Hsz.
Qed.

Lemma sum_sizes_insert (m : gmap Key Artifact) k v :
  sum_sizes (map_to_list (<[k := v]> m))
  = sum_sizes (map_to_list m)
    - match m !! k with Some a => art_size a | None => 0 end
    + art_size v.
Proof.
  rewrite <- insert_delete_eq.
  rewrite (sum_sizes_perm _ _ (map_to_list_insert _ _ _ (lookup_delete_eq _ _))).
  simpl. destruct (m !! k) as [a|] eqn:E.
  - rewrite <- (sum_sizes_perm _ _ (map_to_list_delete _ _ _ E)). simpl. lia.
  - rewrite delete_id by exact E. lia.
Qed.

Lemma well_formed_Put now k p s :
  well_formed s -> well_formed (ArtifactStore.Put now k p s).2.
Proof.
  intros [Hsum Hsz]. unfold ArtifactStore.Put. simpl. split; simpl.
  - unfold Evictor.snapshot in *. simpl.
    rewrite sum_sizes_insert, Hsum. unfold ArtifactStore.size_of. reflexivity.
  - apply map_Forall_insert_2; [reflexivity | exact Hsz].
Qed.

Lemma well_formed_touch now k s :
  well_formed s -> well_formed (ArtifactStore.touch now k s).
Proof.
  intros [Hsum Hsz]. unfold ArtifactStore.touch. split; simpl.
  - unfold Evictor.snapshot in *. simpl.
    rewrite alter_alt.
    destruct (ArtifactStore.artifacts s !! k) as [a|] eqn:E; [|exact Hsum].
    rewrite sum_sizes_insert, E, Hsum. simpl. lia.
  - intros k' a'. rewrite lookup_alter.
    case_decide as D; [subst k'|apply Hsz].
    destruct (ArtifactStore.artifacts s !! k) as [a|] eqn:E; simpl; [|discriminate].
    intros [= <-]. simpl. apply (Hsz k a E).
Qed.

(** ** The size pass *)

Lemma needed_le low total cands : (needed low total cands <= length cands)%nat.
Proof.
  revert total. induction cands as [|ka rest IH]; intros total; simpl; [lia|].
  destruct (total <=? low); [lia|]. specialize (IH (total - art_size ka.2)). lia.
Qed.

(** No shorter prefix of the candidates brings the size down to the mark. *)
Lemma needed_minimal low total cands m :
  (m < needed low total cands)%nat -> low < total - sum_sizes (take m cands).
Proof.
  revert total m. induction cands as [|ka rest IH]; intros total m; simpl; [lia|].
  destruct (total <=? low) eqn:E; [lia|]. apply Z.leb_gt in E.
  destruct m as [|m]; simpl; [lia|].
  intros H. specialize (IH (total - art_size ka.2) m). lia.
Qed.

(** The prefix it stops at does, unless the candidates ran out. *)
Lemma needed_enough low total cands :
  total - sum_sizes (take (needed low total cands) cands) <= low
  \/ needed low total cands = length cands.
Proof.
  revert total. induction cands as [|ka rest IH]; intros total; simpl; [right; reflexivity|].
  destruct (total <=? low) eqn:E; [apply Z.leb_le in E; left; simpl; lia|].
  simpl. destruct (IH (total - art_size ka.2)) as [H | H]; [left; lia | right; lia].
Qed.

Lemma evict_lru_run low cands s :
  NoDup cands.*1 ->
  (forall k a, (k, a) ∈ cands -> ArtifactStore.artifacts s !! k = Some a) ->
  (Evictor.evict_lru low cands s).2
  = (take (needed low (ArtifactStore.aggregate s) cands) cands).*1
  /\ ArtifactStore.aggregate (Evictor.evict_lru low cands s).1
     = ArtifactStore.aggregate s
       - sum_sizes (take (needed low (ArtifactStore.aggregate s) cands) cands)
  /\ forall k,
       ArtifactStore.artifacts (Evictor.evict_lru low cands s).1 !! k
       = if decide (k ∈ (take (needed low (ArtifactStore.aggregate s) cands) cands).*1)
         then None else ArtifactStore.artifacts s !! k.
Proof.
  revert s. induction cands as [|[k0 a0] rest IH]; intros s Hnd Hin; simpl.
  { split; [reflexivity|]. split; [lia|]. intros k.
    first [reflexivity | case_decide as H; [inversion H | reflexivity]]. }
  destruct (ArtifactStore.aggregate s <=? low) eqn:E; simpl.
  { split; [reflexivity|]. split; [lia|]. intros k.
    first [reflexivity | case_decide as H; [inversion H | reflexivity]]. }
  apply NoDup_cons in Hnd as [Hk0 Hnd]. simpl in Hk0.
  assert (E0 : ArtifactStore.artifacts s !! k0 = Some a0).
  { apply Hin. apply list_elem_of_here. }
  unfold ArtifactStore.Delete at 1 2 3. rewrite E0. cbn [snd].
  set (s1 := {| ArtifactStore.artifacts := delete k0 (ArtifactStore.artifacts s);
                ArtifactStore.aggregate := ArtifactStore.aggregate s - art_size a0 |}).
  destruct (IH s1 Hnd) as (G & A & L).
  { intros k a Hka. simpl. rewrite lookup_delete_ne.
    - apply Hin. apply list_elem_of_further. exact Hka.
    - intros ->. apply Hk0. apply list_elem_of_fmap. exists (k, a). split; [reflexivity|exact Hka]. }
  destruct (Evictor.evict_lru low rest s1) as [s' gone]. simpl in *.
  split; [rewrite G; reflexivity|].
  split; [rewrite A; lia|].
  intros k. rewrite L.
  destruct (decide (k = k0)) as [->|Hne].
  - rewrite lookup_delete_eq, (decide_True _ _ (list_elem_of_here _ _)).
    destruct (decide _); reflexivity.
  - rewrite lookup_delete_ne by congruence.
    destruct (decide (k ∈ _)) as [H|H].
    + rewrite decide_True by (apply list_elem_of_further; exact H). reflexivity.
    + rewrite decide_False; [reflexivity|].
      intros H'. apply elem_of_cons in H' as [H'|H']; contradiction.
Qed.

(** ** The age pass *)

Lemma age_pass_well_formed cfg now snap s :
  well_formed s -> well_formed (Evictor.age_pass cfg now snap s).
Proof.
  unfold Evictor.age_pass. revert s.
  induction snap as [|ka rest IH]; intros s Hs; simpl; [exact Hs|].
  apply IH. destruct (Evictor.expired cfg now ka.2); [apply well_formed_Delete|]; exact Hs.
Qed.

Lemma elem_of_aged_out cfg now snap k :
  k ∈ aged_out cfg now snap
  <-> exists a, (k, a) ∈ snap /\ Evictor.expired cfg now a = true.
Proof.
  unfold aged_out. rewrite list_elem_of_fmap. split.
  - intros ([k' a] & -> & H). apply list_elem_of_filter in H as [F H].
    exists a. split; [exact H|]. unfold Evictor.fresh in F. simpl in *.
    destruct (Evictor.expired cfg now a); [reflexivity | contradiction F; reflexivity].
  - intros (a & H & E). exists (k, a). split; [reflexivity|].
    apply list_elem_of_filter. split; [|exact H].
    unfold Evictor.fresh. simpl. rewrite E. discriminate.
Qed.

Lemma age_pass_lookup cfg now snap s k :
  ArtifactStore.artifacts (Evictor.age_pass cfg now snap s) !! k
  = if decide (k ∈ aged_out cfg now snap)
    then None else ArtifactStore.artifacts s !! k.
Proof.
  unfold Evictor.age_pass. revert s.
  induction snap as [|[k0 a0] rest IH]; intros s; simpl.
  { reflexivity. }
  rewrite IH.
  destruct (decide (k ∈ aged_out cfg now rest)) as [Hin|Hno].
  { rewrite decide_True; [reflexivity|].
    apply elem_of_aged_out in Hin as (a & Ha & Ea). apply elem_of_aged_out.
    exists a. split; [|exact Ea]. apply list_elem_of_further. exact Ha. }
  destruct (Evictor.expired cfg now a0) eqn:E0.
  - rewrite Delete_artifacts.
    destruct (decide (k = k0)) as [->|Hne].
    + rewrite lookup_delete_eq, decide_True; [reflexivity|].
      apply elem_of_aged_out. exists a0. split; [apply list_elem_of_here | exact E0].
    + rewrite lookup_delete_ne by congruence.
      rewrite decide_False; [reflexivity|].
      rewrite elem_of_aged_out.
      intros (a & Ha & Ea). apply elem_of_cons in Ha as [[= -> ->]|Ha]; [congruence|].
      apply Hno. apply elem_of_aged_out. exists a. split; assumption.
  - rewrite decide_False; [reflexivity|].
    rewrite elem_of_aged_out.
    intros (a & Ha & Ea). apply elem_of_cons in Ha as [[= -> ->]|Ha]; [congruence|].
    apply Hno. apply elem_of_aged_out. exists a. split; assumption.
Qed.

(** What the age pass leaves of the listing is the listing of the store it
    leaves. *)
Lemma age_pass_snapshot cfg now s :
  filter (Evictor.fresh cfg now) (Evictor.snapshot s)
  ≡ₚ Evictor.snapshot (Evictor.age_pass cfg now (Evictor.snapshot s) s).
Proof.
  unfold Evictor.snapshot.
  apply NoDup_Permutation.
  - apply NoDup_filter, NoDup_map_to_list.
  - apply NoDup_map_to_list.
  - intros [k a]. rewrite list_elem_of_filter, !elem_of_map_to_list, age_pass_lookup.
    unfold Evictor.fresh. simpl. split.
    + intros [F H]. rewrite decide_False; [exact H|].
      rewrite elem_of_aged_out.
      intros (a' & Ha' & Ea'). apply elem_of_map_to_list in Ha'. congruence.
    + destruct (decide _) as [|Hno]; [discriminate|]. intros H. split; [|exact H].
      destruct (Evictor.expired cfg now a) eqn:E; [|reflexivity].
      exfalso. apply Hno. apply elem_of_aged_out.
      exists a. split; [|exact E]. apply elem_of_map_to_list. exact H.
Qed.

(** ** One cycle *)

Lemma evict_lru_well_formed low cands s :
  well_formed s -> well_formed (Evictor.evict_lru low cands s).1.
Proof.
  revert s. induction cands as [|ka rest IH]; intros s Hs; simpl; [exact Hs|].
  destruct (ArtifactStore.aggregate s <=? low); [exact Hs|].
  specialize (IH (ArtifactStore.Delete ka.1 s).2 (well_formed_Delete _ _ Hs)).
  destruct (Evictor.evict_lru low rest (ArtifactStore.Delete ka.1 s).2). exact IH.
Qed.

Lemma StronglySorted_lookup {A} (R : relation A) (l : list A) i j x y :
  StronglySorted R l -> l !! i = Some x -> l !! j = Some y -> (i < j)%nat -> R x y.
Proof.
  intros H. revert i j. induction H as [|z l _ IH Hz]; intros i j Hi Hj Hlt.
  - inversion Hi.
  - destruct j as [|j]; [lia|]. simpl in Hj.
    destruct i as [|i]; simpl in Hi.
    + injection Hi as ->. rewrite Forall_forall in Hz. apply Hz.
      eapply list_elem_of_lookup_2. exact Hj.
    + apply (IH i j); [assumption | assumption | lia].
Qed.

Lemma candidates_perm cfg now s :
  candidates cfg now s
  ≡ₚ Evictor.snapshot (Evictor.age_pass cfg now (Evictor.snapshot s) s).
Proof.
  unfold candidates. rewrite lru_order_perm. apply age_pass_snapshot.
Qed.

Lemma candidates_NoDup cfg now s : NoDup (candidates cfg now s).*1.
Proof.
  rewrite candidates_perm. apply NoDup_fst_map_to_list.
Qed.

(** They come strictly least recently used first, ties by key. *)
Lemma candidates_ascending cfg now s i j x y :
  candidates cfg now s !! i = Some x ->
  candidates cfg now s !! j = Some y ->
  (i < j)%nat ->
  Evictor.lru_lt x y.
Proof.
  intros Hi Hj Hlt. apply lru_le_lt.
  - eapply StronglySorted_lookup; [apply lru_order_sorted | exact Hi | exact Hj | exact Hlt].
  - intros E. pose proof (candidates_NoDup cfg now s) as ND.
    assert (i = j); [|lia].
    apply (NoDup_lookup _ i j x.1 ND); rewrite list_lookup_fmap;
      [rewrite Hi; reflexivity | rewrite Hj; simpl; rewrite E; reflexivity].
Qed.

(** C5. Take any store in which the aggregate size is the sum of the
    resident sizes, and a low water mark that is not negative.  If after the
    age pass the aggregate size exceeds the high water mark, the cycle ends
    with an aggregate size at or below the low water mark.  The keys the size
    pass deletes are the first [n] of the resident artifacts listed strictly
    by ascending last-access time, ties by key; the store keeps every other
    artifact; and [n] is the least number that will do: after any fewer the
    size is still above the low water mark. *)
Theorem size_pass_evicts_lru (cfg : CleanFlagsT) (now : Time) (s : ArtifactStore.t) :
  well_formed s ->
  0 <= LowWaterMark cfg ->
  HighWaterMark cfg
    < ArtifactStore.aggregate (Evictor.age_pass cfg now (Evictor.snapshot s) s) ->
  exists n : nat,
    candidates cfg now s
      ≡ₚ Evictor.snapshot (Evictor.age_pass cfg now (Evictor.snapshot s) s)
    /\ (forall i j x y,
          candidates cfg now s !! i = Some x -> candidates cfg now s !! j = Some y ->
          (i < j)%nat -> Evictor.lru_lt x y)
    /\ (Evictor.cycle cfg now s).2 = (take n (candidates cfg now s)).*1
    /\ (forall k,
          ArtifactStore.artifacts (Evictor.cycle cfg now s).1 !! k
          = if decide (k ∈ (Evictor.cycle cfg now s).2) then None
            else ArtifactStore.artifacts
                   (Evictor.age_pass cfg now (Evictor.snapshot s) s) !! k)
    /\ ArtifactStore.aggregate (Evictor.cycle cfg now s).1
       = ArtifactStore.aggregate (Evictor.age_pass cfg now (Evictor.snapshot s) s)
         - sum_sizes (take n (candidates cfg now s))
    /\ ArtifactStore.aggregate (Evictor.cycle cfg now s).1 <= LowWaterMark cfg
    /\ (forall m, (m < n)%nat ->
          LowWaterMark cfg
          < ArtifactStore.aggregate (Evictor.age_pass cfg now (Evictor.snapshot s) s)
            - sum_sizes (take m (candidates cfg now s)))
    /\ well_formed (Evictor.cycle cfg now s).1.
Proof.
  intros Hwf Hlow Hhigh.
  set (s1 := Evictor.age_pass cfg now (Evictor.snapshot s) s) in *.
  assert (Hwf1 : well_formed s1) by (apply age_pass_well_formed; exact Hwf).
  pose proof (candidates_perm cfg now s) as Hperm. fold s1 in Hperm.
  assert (Hcycle : Evictor.cycle cfg now s
                   = Evictor.evict_lru (LowWaterMark cfg) (candidates cfg now s) s1).
  { unfold Evictor.cycle, Evictor.size_pass. fold s1.
    apply Z.ltb_lt in Hhigh. rewrite Hhigh. reflexivity. }
  destruct (evict_lru_run (LowWaterMark cfg) (candidates cfg now s) s1) as (G & A & L).
  { apply candidates_NoDup. }
  { intros k a Hka. rewrite Hperm in Hka. apply elem_of_map_to_list in Hka. exact Hka. }
  exists (needed (LowWaterMark cfg) (ArtifactStore.aggregate s1) (candidates cfg now s)).
  rewrite Hcycle.
  split; [exact Hperm|].
  split; [apply candidates_ascending|].
  split; [exact G|].
  split; [intros k; rewrite L, G; reflexivity|].
  split; [exact A|].
  split.
  - rewrite A.
    destruct (needed_enough (LowWaterMark cfg) (ArtifactStore.aggregate s1)
                (candidates cfg now s)) as [H | H]; [exact H|].
    rewrite H, firstn_all, (sum_sizes_perm _ _ Hperm).
    destruct Hwf1 as [Hsum _]. rewrite <- Hsum. lia.
  - split; [intros m; apply needed_minimal|].
    apply evict_lru_well_formed. exact Hwf1.
Qed.

Lemma four_artifacts_well_formed : well_formed four_artifacts.
Proof.
  split; [vm_compute; reflexivity|].
  apply map_Forall_to_list. vm_compute. repeat constructor.
Qed.

Lemma size_pass_evicts_lru_witness :
  exists n : nat,
    (Evictor.cycle (small_marks 6 8 1000) 50 four_artifacts).2
    = (take n (candidates (small_marks 6 8 1000) 50 four_artifacts)).*1
    /\ ArtifactStore.aggregate (Evictor.cycle (small_marks 6 8 1000) 50 four_artifacts).1 <= 6.
Proof.
  destruct (size_pass_evicts_lru (small_marks 6 8 1000) 50 four_artifacts)
    as (n & _ & _ & G & _ & _ & A & _).
  - apply four_artifacts_well_formed.
  - simpl. lia.
  - vm_compute. reflexivity.
  - exists n. split; [exact G | exact A].
Defined.

(** * Further properties of [main] *)

(** Splits a run of [main] into its shapes and each shape into the calls it
    is made of. *)
Ltac run_shapes net o :=
  rewrite ?main_run;
  unfold tls_flags_ok;
  destruct (key_cert_mismatch (TLSFlags o)) eqn:?;
  [|destruct (certs_without_key (TLSFlags o)) eqn:?;
    [|destruct (seed_decision net (ClusterFlags o)) eqn:?;
      [destruct (ClusterSize (ClusterFlags o) <? 2) eqn:?|]]];
  cbn [andb negb trace outcome fst snd].

Ltac run_calls o :=
  unfold logging_calls, cache_calls, cluster_calls, clusta_of, serving_calls;
  destruct (non_empty (LogFile o));
  destruct (seed_if_applies (ClusterFlags o));
  try destruct (non_empty (ClusterAddresses (ClusterFlags o)));
  destruct (negb (HTTPPort o =? 0));
  destruct (negb (MetricsPort o =? 0)).

(** ** How startup ends *)

(** X1. The process dies with the message of the first startup check that
    fails, in the order key/cert pair, client certificates, cluster size; or,
    in a run that passed the checks with [--http_port] set, with the error the
    status listener returned with.  A process that does not die has passed
    the three checks, built the gRPC server once and reached
    [ServeGrpcForever], the last call of [main], and its status listener, if
    any, has not returned. *)
Theorem startup_outcome net ls o :
  match process_end net ls o with
  | Fatal msg =>
      (key_cert_mismatch (TLSFlags o) = true /\ msg = msg_key_cert)
      \/ (key_cert_mismatch (TLSFlags o) = false
          /\ certs_without_key (TLSFlags o) = true /\ msg = msg_certs_need_tls)
      \/ (tls_flags_ok (TLSFlags o) = true
          /\ seed_decision net (ClusterFlags o) = true
          /\ ClusterSize (ClusterFlags o) < 2 /\ msg = msg_cluster_size)
      \/ (config_error net o = false
          /\ HTTPPort o <> 0
          /\ exists e, ls (status_listener o) = Some e /\ msg = (e ++ newline)%string)
  | Done _ =>
      tls_flags_ok (TLSFlags o) = true
      /\ (seed_decision net (ClusterFlags o) = true -> 2 <= ClusterSize (ClusterFlags o))
      /\ (HTTPPort o <> 0 -> ls (status_listener o) = None)
      /\ times is_build (main net o) = 1%nat
      /\ times is_serve (main net o) = 1%nat
      /\ last (trace (main net o)) = Some ServeGrpcForever
  end.
Proof.
  assert (G : forall e, on_return (status_listener o) e = Some (e ++ newline)%string).
  { intros e. unfold status_listener.
    destruct (non_empty (KeyFile (TLSFlags o))); reflexivity. }
  assert (S : config_error net o = false ->
              goroutine_fatal ls (started (main net o))
              = if HTTPPort o =? 0 then None
                else match ls (status_listener o) with
                     | Some e => Some (e ++ newline)%string
                     | None => None
                     end).
  { intros OK. rewrite main_run_ok by exact OK. unfold started. cbn [trace fst].
    unfold logging_calls, cache_calls, cluster_calls, serving_calls.
    destruct (non_empty (LogFile o)); destruct (seed_if_applies (ClusterFlags o));
      destruct (seed_decision net (ClusterFlags o));
      destruct (non_empty (ClusterAddresses (ClusterFlags o)));
      destruct (HTTPPort o =? 0); destruct (MetricsPort o =? 0); cbn;
      try reflexivity;
      destruct (ls (status_listener o)) as [e|]; rewrite ?G;
      try reflexivity;
      destruct (ls (ServeMetrics _)); reflexivity. }
  unfold process_end.
  destruct (config_error net o) eqn:CE.
  - clear S. unfold config_error in CE. unfold times, calls. run_shapes net o;
      try discriminate CE.
    + left. split; reflexivity.
    + right. left. repeat split; reflexivity.
    + right. right. left. repeat split; try reflexivity. apply Z.ltb_lt. assumption.
  - rewrite (S eq_refl). clear S G.
    assert (P : outcome (main net o) = Done tt
                /\ tls_flags_ok (TLSFlags o) = true
                /\ (seed_decision net (ClusterFlags o) = true
                    -> 2 <= ClusterSize (ClusterFlags o))
                /\ times is_build (main net o) = 1%nat
                /\ times is_serve (main net o) = 1%nat
                /\ last (trace (main net o)) = Some ServeGrpcForever).
    { unfold config_error in CE. unfold times, calls. run_shapes net o;
        try discriminate CE.
      - split; [reflexivity|]. split; [reflexivity|].
        split; [intros _; apply Z.ltb_ge; assumption|].
        run_calls o; repeat split; reflexivity.
      - split; [reflexivity|]. split; [reflexivity|]. split; [discriminate|].
        run_calls o; repeat split; reflexivity. }
    destruct P as (O & T & Z & B & V & L). rewrite O.
    destruct (HTTPPort o =? 0) eqn:HP.
    + apply Z.eqb_eq in HP. repeat split; try assumption. intros N. contradiction.
    + apply Z.eqb_neq in HP. destruct (ls (status_listener o)) as [e|] eqn:E.
      * right. right. right. split; [reflexivity|]. split; [exact HP|].
        exists e. split; reflexivity.
      * repeat split; assumption.
Qed.

(** With a key file that cannot be read the status listener returns at
    once and the process dies, although the startup checks passed. *)
Example status_listener_kills :
  process_end resolves unreadable_key (opts_of 8080 with_tls standalone)
  = Fatal ("open key.pem: no such file or directory" ++ newline)
  /\ process_end resolves listening (opts_of 8080 with_tls standalone) = Done tt
  /\ process_end resolves unreadable_key (opts_of 0 with_tls standalone) = Done tt.
Proof. repeat split; reflexivity. Qed.

(** ** What is called, and how often *)

(** X2. [net.LookupIP] is called once when the TLS checks pass and
    [--seed_if] is set and equals the node name, and not at all otherwise; it
    is given the whole [--cluster_addresses] string, commas included. *)
Theorem lookup_calls net o :
  calls is_lookup (main net o)
  = if tls_flags_ok (TLSFlags o) && seed_if_applies (ClusterFlags o)
    then [LookupIP (ClusterAddresses (ClusterFlags o))] else [].
Proof.
  unfold calls. run_shapes net o; run_calls o; reflexivity.
Qed.

(** X3. The cache is opened once, with the five retention and directory
    flags, in every run that passes the TLS checks, also in one that then
    dies on the cluster size; a run that fails a TLS check never opens it. *)
Theorem new_cache_calls net o :
  calls is_new_cache (main net o)
  = if tls_flags_ok (TLSFlags o)
    then [NewCache (Dir o) (CleanFrequency (CleanFlags o)) (MaxArtifactAge (CleanFlags o))
            (LowWaterMark (CleanFlags o)) (HighWaterMark (CleanFlags o))]
    else [].
Proof.
  unfold calls. run_shapes net o; run_calls o; reflexivity.
Qed.

(** X4. A run that passes the startup checks starts one goroutine per
    port set among [--http_port] and [--metrics_port] and registers a handler
    only for the former; a run that dies starts none.  With both ports 0 the
    server has no HTTP side at all. *)
Theorem goroutines_started net o :
  times is_go (main net o)
  = (if config_error net o then O
     else Nat.add (if HTTPPort o =? 0 then O else 1%nat)
                  (if MetricsPort o =? 0 then O else 1%nat))
  /\ times is_handle (main net o)
     = (if config_error net o then O else if HTTPPort o =? 0 then O else 1%nat)
  /\ times is_metrics (main net o)
     = (if config_error net o then O else if MetricsPort o =? 0 then O else 1%nat).
Proof.
  unfold times, calls, config_error.
  run_shapes net o;
    unfold logging_calls, cache_calls, cluster_calls, clusta_of, serving_calls;
    destruct (non_empty (LogFile o));
    destruct (seed_if_applies (ClusterFlags o));
    try destruct (non_empty (ClusterAddresses (ClusterFlags o)));
    destruct (HTTPPort o =? 0); destruct (MetricsPort o =? 0);
    repeat split; reflexivity.
Qed.

(** X5. Every run, also one that dies, starts by initialising logging:
    [InitLogging] with the verbosity, then [InitFileLogging] with the same
    verbosity exactly when [--log_file] is set; logging is initialised
    nowhere else. *)
Theorem logging_comes_first net o :
  exists rest,
    trace (main net o)
    = (InitLogging (Verbosity o)
       :: (if non_empty (LogFile o) then [InitFileLogging (LogFile o) (Verbosity o)] else [])
       ++ rest)%list
    /\ existsb is_init_logging rest = false.
Proof.
  run_shapes net o; unfold logging_calls; cbn [app].
  1,2: exists []; rewrite app_nil_r; split; reflexivity.
  1: exists (cache_calls o).
  2: exists (cache_calls o ++ cluster_calls o true ++ serving_calls o (clusta_of o true))%list.
  3: exists (cache_calls o ++ cluster_calls o false ++ serving_calls o (clusta_of o false))%list.
  all: split; [rewrite <- ?app_assoc; reflexivity|].
  all: unfold cache_calls, cluster_calls, clusta_of, serving_calls;
    destruct (seed_if_applies (ClusterFlags o));
    try destruct (non_empty (ClusterAddresses (ClusterFlags o)));
    destruct (negb (HTTPPort o =? 0));
    destruct (negb (MetricsPort o =? 0)); reflexivity.
Qed.

(** ** What the cluster flags do and do not change *)

Ltac open_flags o :=
  destruct o as [? ? ? ? ? ? ? ? [? ? ? ? ? ? ?]];
  unfold with_seed_cluster, with_cluster_size, with_cluster_addresses, with_cluster_flags,
    logging_calls, cache_calls, cluster_calls, clusta_of, serving_calls, status_listener,
    new_cluster, seed_decision, seed_if_applies in *;
  cbn [Port HTTPPort MetricsPort Dir Verbosity LogFile CleanFlags TLSFlags ClusterFlags
       ClusterPort ClusterAddresses SeedCluster ClusterSize NodeName SeedIf AdvertiseAddr] in *.

(** X6. When [--seed_if] is set and equals the node name, [--seed_cluster]
    is overridden: the run is the same whether it was passed or not. *)
Theorem seed_if_overrides_seed_cluster net o b :
  seed_if_applies (ClusterFlags o) = true ->
  main net (with_seed_cluster b o) = main net o.
Proof.
  intros H. rewrite !main_run. open_flags o. rewrite H. reflexivity.
Qed.

Lemma seed_if_overrides_seed_cluster_witness :
  main resolves (with_seed_cluster false (opts_of 0 no_tls (seed_with_peers "cache-0")))
  = main resolves (opts_of 0 no_tls (seed_with_peers "cache-0")).
Proof.
  apply (seed_if_overrides_seed_cluster resolves
           (opts_of 0 no_tls (seed_with_peers "cache-0")) false).
  reflexivity.
Defined.



(** X8. [--cluster_size] "has no effect" unless the node seeds: when line
    79 reads [SeedCluster] as false, the run is the same for every cluster
    size. *)
Theorem cluster_size_only_matters_to_seed net o n :
  seed_decision net (ClusterFlags o) = false ->
  main net (with_cluster_size n o) = main net o.
Proof.
  intros H. rewrite !main_run. open_flags o. rewrite H. reflexivity.
Qed.

Lemma cluster_size_only_matters_to_seed_witness :
  main resolves (with_cluster_size 1 (opts_of 0 no_tls join_peers))
  = main resolves (opts_of 0 no_tls join_peers).
Proof.
  apply (cluster_size_only_matters_to_seed resolves (opts_of 0 no_tls join_peers) 1).
  reflexivity.
Defined.

(** X9. A node started with [--seed_cluster], and no [--seed_if] naming
    it, ignores [--cluster_addresses]: the run is the same for every value of
    it, the peers are neither resolved nor joined. *)
Theorem seed_cluster_ignores_addresses net o a :
  seed_if_applies (ClusterFlags o) = false ->
  SeedCluster (ClusterFlags o) = true ->
  main net (with_cluster_addresses a o) = main net o
  /\ happens is_lookup (main net o) = false
  /\ happens is_join (main net o) = false.
Proof.
  intros H S.
  split; [rewrite !main_run; open_flags o; rewrite H, S; reflexivity|].
  unfold happens. rewrite main_run. unfold seed_decision, cache_calls, cluster_calls.
  rewrite H, S.
  destruct (key_cert_mismatch (TLSFlags o));
    [split; apply logging_calls_quiet; reflexivity|].
  destruct (certs_without_key (TLSFlags o));
    [split; apply logging_calls_quiet; reflexivity|].
  destruct (ClusterSize (ClusterFlags o) <? 2); cbn [andb trace fst];
    rewrite !existsb_app, ?serving_calls_no, !logging_calls_quiet by reflexivity;
    split; reflexivity.
Qed.

Lemma seed_cluster_ignores_addresses_witness :
  main resolves (with_cluster_addresses "" (opts_of 0 no_tls (seed_with_peers "")))
  = main resolves (opts_of 0 no_tls (seed_with_peers "")).
Proof.
  apply (seed_cluster_ignores_addresses resolves (opts_of 0 no_tls (seed_with_peers "")) "");
    reflexivity.
Defined.

(** ** The peers a node joins *)

Lemma split_on_nonempty sep s : split_on sep s <> [].
Proof.
  destruct s as [|c rest]; simpl; [discriminate|].
  destruct (Ascii.eqb c sep); [discriminate|].
  destruct (split_on sep rest); discriminate.
Qed.

Lemma concat_cons_char sep c p ps :
  String.concat sep (String c p :: ps) = String c (String.concat sep (p :: ps)).
Proof. destruct ps; reflexivity. Qed.

Lemma join_split sep s : join_with sep (split_on sep s) = s.
Proof.
  unfold join_with. induction s as [|c rest IH]; simpl; [reflexivity|].
  destruct (Ascii.eqb c sep) eqn:E.
  - apply Ascii.eqb_eq in E. subst c.
    destruct (split_on sep rest) as [|p ps] eqn:S; [now apply split_on_nonempty in S|].
    simpl in *. rewrite IH. reflexivity.
  - destruct (split_on sep rest) as [|p ps] eqn:S; [now apply split_on_nonempty in S|].
    rewrite concat_cons_char, IH. reflexivity.
Qed.

Lemma length_split sep s : length (split_on sep s) = S (count_char sep s).
Proof.
  induction s as [|c rest IH]; simpl; [reflexivity|].
  destruct (Ascii.eqb c sep); simpl; [rewrite IH; reflexivity|].
  destruct (split_on sep rest) as [|p ps] eqn:S; [now apply split_on_nonempty in S|].
  exact IH.
Qed.

Lemma split_pieces_clean sep s :
  Forall (fun p => count_char sep p = O) (split_on sep s).
Proof.
  induction s as [|c rest IH]; simpl; [repeat constructor|].
  destruct (Ascii.eqb c sep) eqn:E; [constructor; [reflexivity | exact IH]|].
  destruct (split_on sep rest) as [|p ps] eqn:S; [now apply split_on_nonempty in S|].
  inversion IH as [|? ? Hp Hps]; subst. constructor; [|exact Hps].
  simpl. rewrite E. exact Hp.
Qed.

(** X10. A node that passes the startup checks, does not seed and has a
    non-empty [--cluster_addresses] calls [Join] once, on the cluster made
    from its four cluster flags, with the pieces of that string between its
    commas: one more piece than there are commas (empty pieces included),
    none containing a comma, and joined by commas they give the string back. *)
Theorem join_receives_the_addresses net o :
  config_error net o = false ->
  seed_decision net (ClusterFlags o) = false ->
  ClusterAddresses (ClusterFlags o) <> "" ->
  exists peers,
    calls is_join (main net o) = [ClusterJoin (new_cluster o) peers]
    /\ join_with comma peers = ClusterAddresses (ClusterFlags o)
    /\ length peers = S (count_char comma (ClusterAddresses (ClusterFlags o)))
    /\ Forall (fun p => count_char comma p = O) peers.
Proof.
  intros OK Hseed Ha. apply non_empty_true in Ha.
  exists (split_on comma (ClusterAddresses (ClusterFlags o))).
  split; [|split; [apply join_split | split; [apply length_split | apply split_pieces_clean]]].
  unfold calls. rewrite main_run_ok by assumption. rewrite Hseed. cbn [trace fst].
  unfold logging_calls, cache_calls, cluster_calls, serving_calls. rewrite Ha.
  destruct (non_empty (LogFile o)); destruct (seed_if_applies (ClusterFlags o));
    destruct (negb (HTTPPort o =? 0)); destruct (negb (MetricsPort o =? 0)); reflexivity.
Qed.

Lemma join_receives_the_addresses_witness :
  exists peers,
    calls is_join (main resolves (opts_of 0 no_tls join_peers))
    = [ClusterJoin (new_cluster (opts_of 0 no_tls join_peers)) peers]
    /\ join_with comma peers = "cache-1:7946,cache-2:7946"
    /\ length peers = 2%nat
    /\ Forall (fun p => count_char comma p = O) peers.
Proof.
  apply (join_receives_the_addresses resolves (opts_of 0 no_tls join_peers));
    [reflexivity | reflexivity | discriminate].
Defined.

(** ** One cluster at most *)

(** X11. In every run [NewCluster] is called at most once, with the four
    flags cluster port, port, node name and advertised address; it is followed
    by one [Init] or one [Join], never both; and the gRPC server is built with
    that cluster if it was created and with nil if it was not. *)
Theorem one_cluster_at_most net o :
  (calls is_new_cluster (main net o) = []
   \/ calls is_new_cluster (main net o) = [NewCluster (new_cluster o)])
  /\ (times is_init (main net o) + times is_join (main net o)
      = times is_new_cluster (main net o))%nat
  /\ (forall e c, In e (trace (main net o)) -> built_with e = Some c ->
        c = if happens is_new_cluster (main net o) then Some (new_cluster o) else None).
Proof.
  unfold times, calls, happens.
  run_shapes net o; run_calls o;
    (split; [first [left; reflexivity | right; reflexivity]|]);
    (split; [reflexivity|]);
    simpl; intros e c H B;
    repeat (destruct H as [<-|H];
            [first [discriminate B | (simpl in B; congruence)]|]);
    contradiction.
Qed.

(** ** The order of the last calls *)

(** X12. A run that passes the startup checks ends with [BuildGrpcServer],
    then, if [--metrics_port] is set, the registration of the metrics on the
    server just built and a goroutine serving them on that port, then
    [ServeGrpcForever]; nothing before [BuildGrpcServer] builds, registers
    metrics or serves, and the status handler, if any, is registered before
    it. *)
Theorem server_is_built_then_measured_then_served net o :
  config_error net o = false ->
  exists before,
    trace (main net o)
    = (before ++ grpc_calls o (clusta_of o (seed_decision net (ClusterFlags o))))%list
    /\ existsb is_build before = false
    /\ existsb is_metrics before = false
    /\ existsb is_serve before = false
    /\ existsb is_handle before = negb (HTTPPort o =? 0)
    /\ existsb is_handle (grpc_calls o (clusta_of o (seed_decision net (ClusterFlags o))))
       = false.
Proof.
  intros OK. rewrite main_run_ok by assumption. cbn [trace fst].
  exists (logging_calls o ++ cache_calls o
          ++ cluster_calls o (seed_decision net (ClusterFlags o))
          ++ (if negb (HTTPPort o =? 0) then
                [ HandleFunc "/" status_handler;
                  Go (status_listener o);
                  Notice ("Serving HTTP stats on port " ++ fmt_d (HTTPPort o)) ]
              else [])
          ++ [Notice ("Starting up RPC cache server on port " ++ fmt_d (Port o) ++ "...")])%list.
  split.
  { unfold serving_calls, grpc_calls. rewrite <- !app_assoc. reflexivity. }
  unfold grpc_calls, logging_calls, cache_calls, cluster_calls, clusta_of.
  destruct (seed_decision net (ClusterFlags o));
    destruct (non_empty (LogFile o)); destruct (seed_if_applies (ClusterFlags o));
    try destruct (non_empty (ClusterAddresses (ClusterFlags o)));
    destruct (negb (HTTPPort o =? 0)); destruct (negb (MetricsPort o =? 0));
    repeat split; reflexivity.
Qed.

Lemma server_is_built_then_measured_then_served_witness :
  exists before,
    trace (main resolves (opts_with_metrics 9090 with_tls standalone))
    = (before ++ [ BuildGrpcServer 7677 None "key.pem" "cert.pem" "" "" "rw";
                   RegisterMetrics;
                   Notice "Serving Prometheus metrics on port 9090 /metrics";
                   Go (ServeMetrics ":9090");
                   ServeGrpcForever ])%list
    /\ existsb is_build before = false.
Proof.
  destruct (server_is_built_then_measured_then_served resolves
              (opts_with_metrics 9090 with_tls standalone))
    as (before & T & B & _); [reflexivity|].
  exists before. split; [exact T | exact B].
Defined.

(** ** Reading the status reply back *)

Lemma fmt_d_inj n m : fmt_d n = fmt_d m -> n = m.
Proof.
  unfold fmt_d. intros H.
  assert (P : forall z, NilZero.int_of_string (NilZero.string_of_int (Z.to_int z))
                        = Some (Z.to_int z)).
  { intros z. apply NilZero.isi; destruct z; simpl; try discriminate;
      intros [= E]; now apply Unsigned.to_uint_nonnil in E. }
  apply DecimalZ.to_int_inj.
  pose proof (P n) as Pn. rewrite H, P in Pn. congruence.
Qed.

Lemma uint_no_blank c d :
  c = " "%char \/ c = "010"%char ->
  count_char c (NilEmpty.string_of_uint d) = O.
Proof.
  intros H. induction d; simpl; try rewrite IHd; destruct H as [-> | ->]; reflexivity.
Qed.

Lemma fmt_d_no_blank c n :
  c = " "%char \/ c = "010"%char -> count_char c (fmt_d n) = O.
Proof.
  intros H. unfold fmt_d.
  assert (U : forall d, count_char c (NilZero.string_of_uint d) = O).
  { intros d. destruct d; try exact (uint_no_blank c _ H).
    destruct H as [-> | ->]; reflexivity. }
  destruct n; simpl; [destruct H as [-> | ->]; reflexivity | apply U |].
  rewrite U. destruct H as [-> | ->]; reflexivity.
Qed.

Lemma append_sep_inj c a a' r r' :
  count_char c a = O -> count_char c a' = O ->
  (a ++ String c r)%string = (a' ++ String c r')%string ->
  a = a' /\ r = r'.
Proof.
  revert a'. induction a as [|x a IH]; intros [|y a'] Ha Ha' E; simpl in *.
  - injection E as ->. split; reflexivity.
  - injection E as -> _. rewrite Ascii.eqb_refl in Ha'. discriminate.
  - injection E as -> _. rewrite Ascii.eqb_refl in Ha. discriminate.
  - injection E as -> E. destruct (Ascii.eqb y c); [discriminate|].
    destruct (IH a' Ha Ha' E) as [-> ->]. split; reflexivity.
Qed.

Lemma append_prefix_inj p x y : (p ++ x)%string = (p ++ y)%string -> x = y.
Proof.
  induction p as [|c p IH]; intros H; [exact H|].
  apply IH. injection H as H. exact H.
Qed.

(** X13. The reply of the status handler determines both counters: two
    cache states give the same reply only if they have the same total size
    and the same number of files. *)
Theorem status_reply_determines_counters c1 c2 :
  body (status_handler c1) = body (status_handler c2) -> c1 = c2.
Proof.
  destruct c1 as [t1 n1], c2 as [t2 n2]. unfold status_handler.
  cbn [body TotalSize NumFiles]. intros H.
  apply append_prefix_inj in H.
  apply (append_sep_inj " " (fmt_d t1) (fmt_d t2)
           ("bytes" ++ String "010" "Num files: " ++ fmt_d n1 ++ String "010" "")
           ("bytes" ++ String "010" "Num files: " ++ fmt_d n2 ++ String "010" ""))
    in H as [Ht H]; try (apply fmt_d_no_blank; left; reflexivity).
  do 2 apply append_prefix_inj in H.
  apply append_sep_inj in H as [Hn _]; try (apply fmt_d_no_blank; right; reflexivity).
  apply fmt_d_inj in Ht, Hn. subst. reflexivity.
Qed.

Lemma status_reply_determines_counters_witness :
  {| TotalSize := 5; NumFiles := 2 |} = {| TotalSize := 2 + 3; NumFiles := 4 - 2 |}.
Proof.
  apply status_reply_determines_counters. reflexivity.
Defined.

(** ** The TLS flags that pass *)

(** X14. The TLS flags pass the startup checks, and the cache is opened,
    exactly when [--key_file] and [--cert_file] are both given, or none of
    [--key_file], [--cert_file], [--writable_certs] and [--readonly_certs] is;
    [--ca_cert_file] plays no part in it. *)
Theorem accepted_tls_flags net o :
  happens is_new_cache (main net o) = true
  <-> (KeyFile (TLSFlags o) <> "" /\ CertFile (TLSFlags o) <> "")
      \/ (KeyFile (TLSFlags o) = "" /\ CertFile (TLSFlags o) = ""
          /\ WritableCerts (TLSFlags o) = "" /\ ReadonlyCerts (TLSFlags o) = "").
Proof.
  assert (E : happens is_new_cache (main net o) = tls_flags_ok (TLSFlags o)).
  { unfold happens. run_shapes net o; run_calls o; reflexivity. }
  rewrite E. unfold tls_flags_ok, key_cert_mismatch, certs_without_key.
  destruct (is_empty (KeyFile (TLSFlags o))) eqn:K;
    destruct (is_empty (CertFile (TLSFlags o))) eqn:C;
    destruct (non_empty (WritableCerts (TLSFlags o))) eqn:W;
    destruct (non_empty (ReadonlyCerts (TLSFlags o))) eqn:R;
    first [apply is_empty_true in K | apply is_empty_false in K];
    first [apply is_empty_true in C | apply is_empty_false in C];
    first [apply non_empty_true in W | apply non_empty_false in W];
    first [apply non_empty_true in R | apply non_empty_false in R];
    simpl; split; intros H; try discriminate; try tauto;
    destruct H as [[? ?] | (? & ? & ? & ?)]; contradiction.
Qed.
